(** * SceneManager: texture registry, material catalog, transform pipeline
      and scene assembly of Project7/Source/SceneManager.cpp

    The development embeds the C++ member functions of [SceneManager] as
    Rocq functions over an explicit state (the members of the class and the
    part of the OpenGL context the class touches) and proves or refutes the
    properties the specification states about them.

    Conventions of the embedding.
    - [int] and [GLuint] values are integers in [Z]; the conversion from
      [GLuint] to [int] that [FindTextureID] performs is written out.
    - [float] is idealised as a real number ([R]): rounding is not modelled.
    - Calls that cross the boundary of the class (shader uniforms, OpenGL,
      mesh draws) are recorded, in order, in the list of calls a function
      returns; the shader manager also keeps the uniforms it received.
    - glm is a header-only third-party library; the five functions used by
      [SetTransformations] are written out from glm's own definitions. *)

From Stdlib Require Import ZArith List String Bool Lia Reals Lra.
Import ListNotations.

Local Open Scope string_scope.
Local Open Scope Z_scope.

(* ================================================================== *)
(** ** Machine integers *)

Module Int.

(** [GLuint] is a 32-bit unsigned integer. *)
Definition GLuint_modulus : Z := 2 ^ 32.

Definition is_GLuint (u : Z) : Prop := 0 <= u < GLuint_modulus.

(** Conversion of a [GLuint] to [int] (32-bit two's complement), as in
    [textureID = m_textureIDs[index].ID]. *)
Definition int_of_GLuint (u : Z) : Z :=
  (u + 2 ^ 31) mod 2 ^ 32 - 2 ^ 31.

End Int.

(* ================================================================== *)
(** ** glm: vectors, matrices and the transform constructors *)

Module glm.

Local Open Scope R_scope.

Record vec2 := mkVec2 { x2 : R; y2 : R }.
Record vec3 := mkVec3 { x3 : R; y3 : R; z3 : R }.
Record vec4 := mkVec4 { x4 : R; y4 : R; z4 : R; w4 : R }.

(** A [mat4] is stored by columns: [m[i]] is column [i]. *)
Record mat4 := mkMat4 { col0 : vec4; col1 : vec4; col2 : vec4; col3 : vec4 }.

(** [vec4 * scalar] and [vec4 + vec4], component-wise. *)
Definition vscale (v : vec4) (s : R) : vec4 :=
  mkVec4 (x4 v * s) (y4 v * s) (z4 v * s) (w4 v * s).

Definition vadd (a b : vec4) : vec4 :=
  mkVec4 (x4 a + x4 b) (y4 a + y4 b) (z4 a + z4 b) (w4 a + w4 b).

(** [mat4(1.0f)]: the diagonal matrix of ones. *)
Definition mat4_1 : mat4 :=
  mkMat4 (mkVec4 1 0 0 0) (mkVec4 0 1 0 0) (mkVec4 0 0 1 0) (mkVec4 0 0 0 1).

(** [operator*(mat4, mat4)]: column [j] of the result is the combination
    of the columns of [m1] weighted by column [j] of [m2]. *)
Definition mul_col (m1 : mat4) (b : vec4) : vec4 :=
  vadd (vadd (vadd (vscale (col0 m1) (x4 b)) (vscale (col1 m1) (y4 b)))
             (vscale (col2 m1) (z4 b)))
       (vscale (col3 m1) (w4 b)).

Definition mul (m1 m2 : mat4) : mat4 :=
  mkMat4 (mul_col m1 (col0 m2)) (mul_col m1 (col1 m2))
         (mul_col m1 (col2 m2)) (mul_col m1 (col3 m2)).

(** [glm::radians]: degrees times the constant 0.01745329251994329576...,
    the decimal expansion of pi/180, idealised as pi/180. *)
Definition radians (degrees : R) : R := degrees * (PI / 180).

(** [glm::normalize(v) = v * inversesqrt(dot(v, v))]. *)
Definition dot (a b : vec3) : R := x3 a * x3 b + y3 a * y3 b + z3 a * z3 b.

Definition inversesqrt (x : R) : R := 1 / sqrt x.

Definition normalize (v : vec3) : vec3 :=
  let k := inversesqrt (dot v v) in
  mkVec3 (x3 v * k) (y3 v * k) (z3 v * k).

(** [glm::translate(m, v)]: [Result[3] = m[0]*v[0] + m[1]*v[1] + m[2]*v[2] + m[3]]. *)
Definition translate_m (m : mat4) (v : vec3) : mat4 :=
  mkMat4 (col0 m) (col1 m) (col2 m)
         (vadd (vadd (vadd (vscale (col0 m) (x3 v)) (vscale (col1 m) (y3 v)))
                     (vscale (col2 m) (z3 v)))
               (col3 m)).

(** [glm::scale(m, v)]: the first three columns scaled, the fourth kept. *)
Definition scale_m (m : mat4) (v : vec3) : mat4 :=
  mkMat4 (vscale (col0 m) (x3 v)) (vscale (col1 m) (y3 v))
         (vscale (col2 m) (z3 v)) (col3 m).

(** [glm::rotate(m, angle, v)]. *)
Definition rotate_m (m : mat4) (angle : R) (v : vec3) : mat4 :=
  let a := angle in
  let c := cos a in
  let s := sin a in
  let axis := normalize v in
  let temp := mkVec3 ((1 - c) * x3 axis) ((1 - c) * y3 axis) ((1 - c) * z3 axis) in
  let r00 := c + x3 temp * x3 axis in
  let r01 := x3 temp * y3 axis + s * z3 axis in
  let r02 := x3 temp * z3 axis - s * y3 axis in
  let r10 := y3 temp * x3 axis - s * z3 axis in
  let r11 := c + y3 temp * y3 axis in
  let r12 := y3 temp * z3 axis + s * x3 axis in
  let r20 := z3 temp * x3 axis + s * y3 axis in
  let r21 := z3 temp * y3 axis - s * x3 axis in
  let r22 := c + z3 temp * z3 axis in
  mkMat4
    (vadd (vadd (vscale (col0 m) r00) (vscale (col1 m) r01)) (vscale (col2 m) r02))
    (vadd (vadd (vscale (col0 m) r10) (vscale (col1 m) r11)) (vscale (col2 m) r12))
    (vadd (vadd (vscale (col0 m) r20) (vscale (col1 m) r21)) (vscale (col2 m) r22))
    (col3 m).

(** The one-argument forms of glm/gtx/transform.hpp start from [mat4(1)]. *)
Definition translate (v : vec3) : mat4 := translate_m mat4_1 v.
Definition rotate (angle : R) (v : vec3) : mat4 := rotate_m mat4_1 angle v.
Definition scale (v : vec3) : mat4 := scale_m mat4_1 v.

End glm.

(* ================================================================== *)
(** ** Data model *)

Import glm.

(** [TEXTURE_INFO]: the OpenGL texture name and the tag it was loaded under.
    [ID] is a [GLuint] ([glGenTextures] writes through [&m_textureIDs[i].ID]). *)
Module TextureInfo.
Record TEXTURE_INFO := mk { ID : Z; tag : string }.
End TextureInfo.
Export TextureInfo (TEXTURE_INFO).

(** [OBJECT_MATERIAL]: a named shading preset. *)
Module ObjectMaterial.
Record OBJECT_MATERIAL := mk {
  ambientColor : vec3;
  ambientStrength : R;
  diffuseColor : vec3;
  specularColor : vec3;
  shininess : R;
  tag : string
}.
End ObjectMaterial.
Export ObjectMaterial (OBJECT_MATERIAL).

(** What [stbi_load] reports about a decoded image file. *)
Record image := mkImage { width : Z; height : Z; colorChannels : Z }.

(** The six basic meshes of [ShapeMeshes]. *)
Inductive mesh := PlaneMesh | CylinderMesh | SphereMesh | TorusMesh | BoxMesh | ConeMesh.

(** OpenGL enumerants used by the texture code. *)
Inductive GLenum :=
| GL_TEXTURE_2D | GL_TEXTURE_WRAP_S | GL_TEXTURE_WRAP_T
| GL_TEXTURE_MIN_FILTER | GL_TEXTURE_MAG_FILTER
| GL_REPEAT | GL_LINEAR
| GL_RGB8 | GL_RGB | GL_RGBA8 | GL_RGBA | GL_UNSIGNED_BYTE.

(** [GL_TEXTURE0]; texture unit [i] is [GL_TEXTURE0 + i]. *)
Definition GL_TEXTURE0 : Z := 33984.

(** Values a shader uniform can hold. *)
Inductive uniform :=
| UInt (v : Z)
| UBool (v : bool)
| UFloat (v : R)
| UVec2 (v : vec2)
| UVec3 (v : vec3)
| UVec4 (v : vec4)
| UMat4 (v : mat4)
| USampler2D (v : Z).

(** Calls that leave the class, in the order they are made. *)
Inductive call :=
| setMat4Value (name : string) (v : mat4)
| setIntValue (name : string) (v : Z)
| setBoolValue (name : string) (v : bool)
| setFloatValue (name : string) (v : R)
| setVec2Value (name : string) (v : vec2)
| setVec3Value (name : string) (v : vec3)
| setVec4Value (name : string) (v : vec4)
| setSampler2DValue (name : string) (v : Z)
| glGenTextures (n : Z) (name : Z)
| glBindTexture (target : GLenum) (texture : Z)
| glTexParameteri (target pname param : GLenum)
| glTexImage2D (target : GLenum) (level : Z) (internalformat : GLenum)
               (w h border : Z) (format type : GLenum)
| glGenerateMipmap (target : GLenum)
| glActiveTexture (texture : Z)
| stbi_set_flip_vertically_on_load (flag : bool)
| stbi_image_free
| LoadMesh (m : mesh)
| DrawMesh (m : mesh).

(** Names of the uniforms, from the anonymous namespace of the source. *)
Definition g_ModelName := "model".
Definition g_ColorValueName := "objectColor".
Definition g_TextureValueName := "objectTexture".
Definition g_UseTextureName := "bUseTexture".
Definition g_UseLightingName := "bUseLighting".

(** The shader manager is a uniform sink: it keeps the last value set under
    each name (newest first). *)
Definition ShaderManager := list (string * uniform).

Fixpoint uniform_value (name : string) (sh : ShaderManager) : option uniform :=
  match sh with
  | [] => None
  | (n, v) :: rest => if String.eqb n name then Some v else uniform_value name rest
  end.

(** The uniform a shader call sets, if it is one. *)
Definition uniform_of_call (c : call) : option (string * uniform) :=
  match c with
  | setMat4Value n v => Some (n, UMat4 v)
  | setIntValue n v => Some (n, UInt v)
  | setBoolValue n v => Some (n, UBool v)
  | setFloatValue n v => Some (n, UFloat v)
  | setVec2Value n v => Some (n, UVec2 v)
  | setVec3Value n v => Some (n, UVec3 v)
  | setVec4Value n v => Some (n, UVec4 v)
  | setSampler2DValue n v => Some (n, USampler2D v)
  | _ => None
  end.

(** Modelled from the spec: the declared length of the member array
    [m_textureIDs].  The declaration is in SceneManager.h, which is not
    among the sources; the comments of the source ("There are up to 16
    slots", "Up to 16 textures can be loaded per scene", "a total of 16
    available slots") and the data model of the specification give 16. *)
Definition TEXTURE_SLOTS : Z := 16.

(** The indices of the cells of the array. *)
Definition in_array (i : Z) : Prop := 0 <= i < TEXTURE_SLOTS.

(** The members of [SceneManager] together with the texture names the
    OpenGL context has generated.  [m_textureIDs] is the member array of
    [TEXTURE_SLOTS] cells.  The source indexes it with [m_loadedTextures]
    and with loop counters and never compares an index with that length,
    so the model addresses the cells by index: an index within [in_array]
    is a cell of the array, an index outside it stands for the memory an
    access past the array reaches.  In the program that memory belongs to
    other members (the catalog follows the array), which the model does not
    represent: what the model says of an access outside [in_array] is where
    the access goes, not what it destroys. *)
Record State := mkState {
  m_pShaderManager : option ShaderManager;
  m_textureIDs : Z -> TEXTURE_INFO;
  m_loadedTextures : Z;
  m_objectMaterials : list OBJECT_MATERIAL;
  gl_texture_names : list Z
}.

Definition with_shader (sh : option ShaderManager) (s : State) : State :=
  mkState sh (m_textureIDs s) (m_loadedTextures s) (m_objectMaterials s)
          (gl_texture_names s).

Definition with_textureIDs (cells : Z -> TEXTURE_INFO) (s : State) : State :=
  mkState (m_pShaderManager s) cells (m_loadedTextures s) (m_objectMaterials s)
          (gl_texture_names s).

Definition with_loadedTextures (n : Z) (s : State) : State :=
  mkState (m_pShaderManager s) (m_textureIDs s) n (m_objectMaterials s)
          (gl_texture_names s).

Definition with_objectMaterials (l : list OBJECT_MATERIAL) (s : State) : State :=
  mkState (m_pShaderManager s) (m_textureIDs s) (m_loadedTextures s) l
          (gl_texture_names s).

Definition with_gl_texture_names (l : list Z) (s : State) : State :=
  mkState (m_pShaderManager s) (m_textureIDs s) (m_loadedTextures s)
          (m_objectMaterials s) l.

(** Assignment to one cell of the array. *)
Definition store_cell (cells : Z -> TEXTURE_INFO) (i : Z) (e : TEXTURE_INFO)
  : Z -> TEXTURE_INFO :=
  fun j => if Z.eqb j i then e else cells j.

(** What the class cannot determine itself: the decoder's answer for a file
    name, the texture name the OpenGL driver hands out next (given the names
    already generated), and the contents an uninitialised local
    [OBJECT_MATERIAL] happens to have. *)
Record Environment := mkEnv {
  stbi_load : string -> option image;
  glGenTextures_name : list Z -> Z;
  indeterminate_material : OBJECT_MATERIAL
}.

(* ================================================================== *)
(** ** A state, output and failure monad for the member functions *)

(** A member function either returns a value, a new state and the calls it
    made, or dereferences a null [m_pShaderManager]. *)
Inductive outcome (A : Type) :=
| Returns (a : A) (s : State) (calls : list call)
| NullDereference.
Arguments Returns {A} a s calls.
Arguments NullDereference {A}.

Definition M (A : Type) := State -> outcome A.

Definition ret {A} (a : A) : M A := fun s => Returns a s [].

Definition bind {A B} (m : M A) (k : A -> M B) : M B :=
  fun s =>
    match m s with
    | Returns a s1 c1 =>
        match k a s1 with
        | Returns b s2 c2 => Returns b s2 (c1 ++ c2)
        | NullDereference => NullDereference
        end
    | NullDereference => NullDereference
    end.

Notation "x <- m ;; k" := (bind m (fun x => k))
  (at level 61, m at next level, right associativity).
Notation "m ;; k" := (bind m (fun _ => k))
  (at level 61, right associativity).

Definition get : M State := fun s => Returns s s [].
Definition put (s : State) : M unit := fun _ => Returns tt s [].
Definition modify (f : State -> State) : M unit := fun s => Returns tt (f s) [].

(** A call into OpenGL or the mesh object. *)
Definition emit (c : call) : M unit := fun s => Returns tt s [c].

(** [m_pShaderManager->set...Value(...)]: fails on a null pointer, otherwise
    the sink records the value and the call is made. *)
Definition shader_call (c : call) : M unit :=
  fun s =>
    match m_pShaderManager s with
    | None => NullDereference
    | Some sh =>
        let sh' := match uniform_of_call c with
                   | Some nv => nv :: sh
                   | None => sh
                   end in
        Returns tt (with_shader (Some sh') s) [c]
    end.

(** [if (NULL != m_pShaderManager) { ... }]. *)
Definition if_shader (body : M unit) : M unit :=
  fun s =>
    match m_pShaderManager s with
    | None => Returns tt s []
    | Some _ => body s
    end.

(** [for (int i = start; i < start + count; i++) body(i)]. *)
Fixpoint for_loop (count : nat) (i : Z) (body : Z -> M unit) : M unit :=
  match count with
  | O => ret tt
  | S k => body i ;; for_loop k (i + 1) body
  end.

(** [while (cond) body] on the local variables [L] of a function that makes
    no calls; [None] when the iteration budget is used up before the
    condition turns false. *)
Fixpoint while {L : Type} (budget : nat) (cond : L -> bool) (body : L -> L)
         (l : L) : option L :=
  match budget with
  | O => None
  | S k => if cond l then while k cond body (body l) else Some l
  end.

(* ================================================================== *)
(** ** The texture registry *)

Section Registry.

Variable E : Environment.

(** [glGenTextures(1, &name)]: the driver picks a texture name, which from
    then on is in use in the context. *)
Definition gl_GenTextures1 : M Z :=
  s <- get ;;
  let name := glGenTextures_name E (gl_texture_names s) in
  emit (glGenTextures 1 name) ;;
  modify (with_gl_texture_names (gl_texture_names s ++ [name])) ;;
  ret name.

(** [glTexImage2D] for the two supported layouts; [false] stands for the
    [return false] of the branch for any other channel count. *)
Definition upload_pixels (img : image) : M bool :=
  if colorChannels img =? 3 then
    emit (glTexImage2D GL_TEXTURE_2D 0 GL_RGB8 (width img) (height img) 0
                       GL_RGB GL_UNSIGNED_BYTE) ;;
    ret true
  else if colorChannels img =? 4 then
    emit (glTexImage2D GL_TEXTURE_2D 0 GL_RGBA8 (width img) (height img) 0
                       GL_RGBA GL_UNSIGNED_BYTE) ;;
    ret true
  else
    ret false.

(** [CreateGLTexture(filename, tag)].  The messages written to [std::cout]
    are not part of the model.  [m_loadedTextures] is an [int]; the model
    does not represent the 2^31 registrations it takes to overflow it. *)
Definition CreateGLTexture (filename tag : string) : M bool :=
  emit (stbi_set_flip_vertically_on_load true) ;;
  match stbi_load E filename with
  | Some img =>
      textureID <- gl_GenTextures1 ;;
      emit (glBindTexture GL_TEXTURE_2D textureID) ;;
      emit (glTexParameteri GL_TEXTURE_2D GL_TEXTURE_WRAP_S GL_REPEAT) ;;
      emit (glTexParameteri GL_TEXTURE_2D GL_TEXTURE_WRAP_T GL_REPEAT) ;;
      emit (glTexParameteri GL_TEXTURE_2D GL_TEXTURE_MIN_FILTER GL_LINEAR) ;;
      emit (glTexParameteri GL_TEXTURE_2D GL_TEXTURE_MAG_FILTER GL_LINEAR) ;;
      supported <- upload_pixels img ;;
      if supported then
        emit (glGenerateMipmap GL_TEXTURE_2D) ;;
        emit stbi_image_free ;;
        emit (glBindTexture GL_TEXTURE_2D 0) ;;
        modify (fun s =>
          with_textureIDs
            (store_cell (m_textureIDs s) (m_loadedTextures s)
                        (TextureInfo.mk textureID tag)) s) ;;
        modify (fun s => with_loadedTextures (m_loadedTextures s + 1) s) ;;
        ret true
      else
        ret false
  | None => ret false
  end.

(** [BindGLTextures()]. *)
Definition BindGLTextures : M unit :=
  s <- get ;;
  for_loop (Z.to_nat (m_loadedTextures s)) 0 (fun i =>
    emit (glActiveTexture (GL_TEXTURE0 + i)) ;;
    s <- get ;;
    emit (glBindTexture GL_TEXTURE_2D (TextureInfo.ID (m_textureIDs s i)))).

(** [DestroyGLTextures()]: the body of the loop is
    [glGenTextures(1, &m_textureIDs[i].ID)]. *)
Definition DestroyGLTextures : M unit :=
  s <- get ;;
  for_loop (Z.to_nat (m_loadedTextures s)) 0 (fun i =>
    name <- gl_GenTextures1 ;;
    modify (fun s =>
      with_textureIDs
        (store_cell (m_textureIDs s) i
                    (TextureInfo.mk name (TextureInfo.tag (m_textureIDs s i)))) s)).

End Registry.

(** The local variables of the two lookup loops: the result so far, [index]
    and [bFound]. *)
Definition scan_locals : Type := Z * Z * bool.

Definition scan_cond (s : State) (l : scan_locals) : bool :=
  let '(_, index, bFound) := l in
  (index <? m_loadedTextures s) && Bool.eqb bFound false.

(** Enough iterations for a scan of the registered cells: one per cell and
    the final test of the condition. *)
Definition scan_budget (s : State) : nat := S (Z.to_nat (m_loadedTextures s)).

(** [FindTextureID(tag)]. *)
Definition FindTextureID_body (tag : string) (s : State) (l : scan_locals)
  : scan_locals :=
  let '(textureID, index, bFound) := l in
  if String.eqb (TextureInfo.tag (m_textureIDs s index)) tag
  then (Int.int_of_GLuint (TextureInfo.ID (m_textureIDs s index)), index, true)
  else (textureID, index + 1, bFound).

Definition FindTextureID_loop (tag : string) (s : State) : option scan_locals :=
  while (scan_budget s) (scan_cond s) (FindTextureID_body tag s) (-1, 0, false).

Definition FindTextureID (tag : string) (s : State) : Z :=
  match FindTextureID_loop tag s with
  | Some (textureID, _, _) => textureID
  | None => -1
  end.

(** [FindTextureSlot(tag)]. *)
Definition FindTextureSlot_body (tag : string) (s : State) (l : scan_locals)
  : scan_locals :=
  let '(textureSlot, index, bFound) := l in
  if String.eqb (TextureInfo.tag (m_textureIDs s index)) tag
  then (index, index, true)
  else (textureSlot, index + 1, bFound).

Definition FindTextureSlot_loop (tag : string) (s : State) : option scan_locals :=
  while (scan_budget s) (scan_cond s) (FindTextureSlot_body tag s) (-1, 0, false).

Definition FindTextureSlot (tag : string) (s : State) : Z :=
  match FindTextureSlot_loop tag s with
  | Some (textureSlot, _, _) => textureSlot
  | None => -1
  end.

(* ================================================================== *)
(** ** The material catalog *)

(** The local variables of the loop of [FindMaterial]: [index], [bFound]
    and the caller's [material]. *)
Definition material_locals : Type := nat * bool * OBJECT_MATERIAL.

Definition FindMaterial_cond (s : State) (l : material_locals) : bool :=
  let '(index, bFound, _) := l in
  (index <? List.length (m_objectMaterials s))%nat && Bool.eqb bFound false.

(** The assignments of the matching branch copy five fields; the tag of the
    caller's [material] is not assigned. *)
Definition copy_material (src dst : OBJECT_MATERIAL) : OBJECT_MATERIAL :=
  ObjectMaterial.mk
    (ObjectMaterial.ambientColor src)
    (ObjectMaterial.ambientStrength src)
    (ObjectMaterial.diffuseColor src)
    (ObjectMaterial.specularColor src)
    (ObjectMaterial.shininess src)
    (ObjectMaterial.tag dst).

(** The condition of the loop keeps [index] below the size of the vector,
    so the entry at [index] exists whenever the body runs. *)
Definition FindMaterial_body (tag : string) (s : State) (l : material_locals)
  : material_locals :=
  let '(index, bFound, material) := l in
  match nth_error (m_objectMaterials s) index with
  | Some entry =>
      if String.eqb (ObjectMaterial.tag entry) tag
      then (index, true, copy_material entry material)
      else (S index, bFound, material)
  | None => l
  end.

Definition FindMaterial_loop (tag : string) (material : OBJECT_MATERIAL)
           (s : State) : option material_locals :=
  while (S (List.length (m_objectMaterials s))) (FindMaterial_cond s)
        (FindMaterial_body tag s) (O, false, material).

(** [FindMaterial(tag, material)]: the returned pair is the [bool] result
    and the contents of the reference parameter afterwards. *)
Definition FindMaterial (tag : string) (material : OBJECT_MATERIAL) (s : State)
  : bool * OBJECT_MATERIAL :=
  if (List.length (m_objectMaterials s) =? 0)%nat then (false, material)
  else
    match FindMaterial_loop tag material s with
    | Some (_, _, material') => (true, material')
    | None => (true, material)
    end.

(* ================================================================== *)
(** ** Transformations and shader state *)

Section Shader.

Variable E : Environment.

Local Open Scope R_scope.

(** The local [modelView] of [SetTransformations]; the product of the
    source associates to the left. *)
Definition modelView_of (scaleXYZ : vec3)
           (XrotationDegrees YrotationDegrees ZrotationDegrees : R)
           (positionXYZ : vec3) : mat4 :=
  let scale := glm.scale scaleXYZ in
  let rotationX := glm.rotate (glm.radians XrotationDegrees) (mkVec3 1 0 0) in
  let rotationY := glm.rotate (glm.radians YrotationDegrees) (mkVec3 0 1 0) in
  let rotationZ := glm.rotate (glm.radians ZrotationDegrees) (mkVec3 0 0 1) in
  let translation := glm.translate positionXYZ in
  glm.mul (glm.mul (glm.mul (glm.mul translation rotationX) rotationY) rotationZ)
          scale.

(** [SetTransformations(scaleXYZ, X, Y, Z, positionXYZ)]. *)
Definition SetTransformations (scaleXYZ : vec3)
           (XrotationDegrees YrotationDegrees ZrotationDegrees : R)
           (positionXYZ : vec3) : M unit :=
  let modelView :=
    modelView_of scaleXYZ XrotationDegrees YrotationDegrees ZrotationDegrees
                 positionXYZ in
  if_shader (shader_call (setMat4Value g_ModelName modelView)).

(** [SetShaderColor(r, g, b, a)]; [setIntValue(name, false)] passes 0. *)
Definition SetShaderColor (redColorValue greenColorValue blueColorValue
                           alphaValue : R) : M unit :=
  let currentColor :=
    mkVec4 redColorValue greenColorValue blueColorValue alphaValue in
  if_shader (
    shader_call (setIntValue g_UseTextureName 0) ;;
    shader_call (setVec4Value g_ColorValueName currentColor)).

(** [SetShaderTexture(textureTag)]; [setIntValue(name, true)] passes 1. *)
Definition SetShaderTexture (textureTag : string) : M unit :=
  if_shader (
    shader_call (setIntValue g_UseTextureName 1) ;;
    s <- get ;;
    let textureID := FindTextureSlot textureTag s in
    shader_call (setSampler2DValue g_TextureValueName textureID)).

(** [SetTextureUVScale(u, v)]. *)
Definition SetTextureUVScale (u v : R) : M unit :=
  if_shader (shader_call (setVec2Value "UVscale" (mkVec2 u v))).

(** [SetShaderMaterial(materialTag)].  The local [material] is declared
    without an initialiser; the five calls go through [m_pShaderManager]
    without a test for null. *)
Definition SetShaderMaterial (materialTag : string) : M unit :=
  s <- get ;;
  if (0 <? List.length (m_objectMaterials s))%nat then
    let material := indeterminate_material E in
    let '(bReturn, material) := FindMaterial materialTag material s in
    if Bool.eqb bReturn true then
      shader_call (setVec3Value "material.ambientColor"
                                (ObjectMaterial.ambientColor material)) ;;
      shader_call (setFloatValue "material.ambientStrength"
                                 (ObjectMaterial.ambientStrength material)) ;;
      shader_call (setVec3Value "material.diffuseColor"
                                (ObjectMaterial.diffuseColor material)) ;;
      shader_call (setVec3Value "material.specularColor"
                                (ObjectMaterial.specularColor material)) ;;
      shader_call (setFloatValue "material.shininess"
                                 (ObjectMaterial.shininess material))
    else ret tt
  else ret tt.

(** [m_objectMaterials.push_back(m)]. *)
Definition push_back_material (m : OBJECT_MATERIAL) : M unit :=
  modify (fun s => with_objectMaterials (m_objectMaterials s ++ [m]) s).

Definition plasticMaterial : OBJECT_MATERIAL :=
  ObjectMaterial.mk (mkVec3 0.1 0.1 0.1) 0.3 (mkVec3 0.2 0.2 0.2)
                    (mkVec3 0.5 0.5 0.5) 6.0 "plastic".

Definition woodMaterial : OBJECT_MATERIAL :=
  ObjectMaterial.mk (mkVec3 0.2 0.2 0.2) 0.3 (mkVec3 0.2 0.2 0.2)
                    (mkVec3 0.5 0.5 0.5) 0.0 "wood".

Definition glassMaterial : OBJECT_MATERIAL :=
  ObjectMaterial.mk (mkVec3 0.2 0.2 0.2) 0.3 (mkVec3 0.2 0.2 0.2)
                    (mkVec3 0.5 0.5 0.5) 8.0 "glass".

(** [DefineObjectMaterials()]. *)
Definition DefineObjectMaterials : M unit :=
  push_back_material plasticMaterial ;;
  push_back_material woodMaterial ;;
  push_back_material glassMaterial.

(** [LoadSceneTextures()]. *)
Definition LoadSceneTextures : M unit :=
  bReturn <- CreateGLTexture E "textures/desktop1.jpg" "monitor" ;;
  bReturn <- CreateGLTexture E "textures/table.jpg" "table" ;;
  bReturn <- CreateGLTexture E "textures/paperTowel.jpeg" "paperTowel" ;;
  bReturn <- CreateGLTexture E "textures/flower.jpg" "vase" ;;
  bReturn <- CreateGLTexture E "textures/drywall.jpg" "wall" ;;
  BindGLTextures.

(** [SetupSceneLights()]: every call goes through [m_pShaderManager]
    without a test for null. *)
Definition SetupSceneLights : M unit :=
  shader_call (setBoolValue g_UseLightingName true) ;;
  shader_call (setVec3Value "lightSources[0].position" (mkVec3 5.0 8.0 6.0)) ;;
  shader_call (setVec3Value "lightSources[0].ambientColor" (mkVec3 0.15 0.13 0.1)) ;;
  shader_call (setVec3Value "lightSources[0].diffuseColor" (mkVec3 0.9 0.85 0.75)) ;;
  shader_call (setVec3Value "lightSources[0].specularColor" (mkVec3 0.3 0.25 0.2)) ;;
  shader_call (setFloatValue "lightSources[0].focalStrength" 0.45) ;;
  shader_call (setFloatValue "lightSources[0].specularIntensity" 0.13) ;;
  shader_call (setVec3Value "lightSources[1].position" (mkVec3 (-4.0) 6.0 3.0)) ;;
  shader_call (setVec3Value "lightSources[1].ambientColor" (mkVec3 0.1 0.1 0.1)) ;;
  shader_call (setVec3Value "lightSources[1].diffuseColor" (mkVec3 0.7 0.65 0.6)) ;;
  shader_call (setVec3Value "lightSources[1].specularColor" (mkVec3 0.2 0.15 0.15)) ;;
  shader_call (setFloatValue "lightSources[1].focalStrength" 0.15) ;;
  shader_call (setFloatValue "lightSources[1].specularIntensity" 0.03) ;;
  shader_call (setVec3Value "lightSources[2].position" (mkVec3 0.0 10.0 6.0)) ;;
  shader_call (setVec3Value "lightSources[2].ambientColor" (mkVec3 0.05 0.05 0.05)) ;;
  shader_call (setVec3Value "lightSources[2].diffuseColor" (mkVec3 0.5 0.5 0.45)) ;;
  shader_call (setVec3Value "lightSources[2].specularColor" (mkVec3 0.15 0.15 0.1)) ;;
  shader_call (setFloatValue "lightSources[2].focalStrength" 0.2) ;;
  shader_call (setFloatValue "lightSources[2].specularIntensity" 0.02) ;;
  shader_call (setVec3Value "lightSources[3].position" (mkVec3 0.0 5.0 (-5.0))) ;;
  shader_call (setVec3Value "lightSources[3].ambientColor" (mkVec3 0.08 0.07 0.07)) ;;
  shader_call (setVec3Value "lightSources[3].diffuseColor" (mkVec3 0.4 0.35 0.3)) ;;
  shader_call (setVec3Value "lightSources[3].specularColor" (mkVec3 0.1 0.08 0.05)) ;;
  shader_call (setFloatValue "lightSources[3].focalStrength" 0.15) ;;
  shader_call (setFloatValue "lightSources[3].specularIntensity" 0.01).

(** [PrepareScene()]. *)
Definition PrepareScene : M unit :=
  LoadSceneTextures ;;
  SetupSceneLights ;;
  DefineObjectMaterials ;;
  emit (LoadMesh PlaneMesh) ;;
  emit (LoadMesh CylinderMesh) ;;
  emit (LoadMesh SphereMesh) ;;
  emit (LoadMesh TorusMesh) ;;
  emit (LoadMesh BoxMesh) ;;
  emit (LoadMesh ConeMesh).

(* ---------------------------------------------------------------- *)
(** *** The object builders *)

Definition createDesktop : M unit :=
  SetTransformations (mkVec3 1.6 1.8 0.2) 0.0 0.0 0.0 (mkVec3 (-1.4) 1.0 3.2) ;;
  SetShaderColor 0.18 0.19 0.19 1.0 ;;
  SetShaderMaterial "plastic" ;;
  emit (DrawMesh BoxMesh) ;;
  SetTransformations (mkVec3 5.6 3.4 0.2) (-20.0) 0.0 0.0 (mkVec3 (-1.4) 3.0 3.0) ;;
  SetShaderColor 0.18 0.19 0.19 1.0 ;;
  SetShaderMaterial "plastic" ;;
  emit (DrawMesh BoxMesh) ;;
  SetTransformations (mkVec3 4.0 1.8 0.1) 90.0 0.0 0.0 (mkVec3 (-1.4) 0.0 3.0) ;;
  SetShaderMaterial "plastic" ;;
  SetShaderColor 0.18 0.19 0.19 1.0 ;;
  emit (DrawMesh BoxMesh) ;;
  SetTransformations (mkVec3 5.2 3.2 0.02) (-20.0) 0.0 0.0 (mkVec3 (-1.4) 3.05 3.13) ;;
  SetShaderColor 0.64 0.24 0.89 1.0 ;;
  SetShaderTexture "monitor" ;;
  SetShaderMaterial "glass" ;;
  emit (DrawMesh BoxMesh).

Definition createPaperTowel : M unit :=
  SetTransformations (mkVec3 1.0 2.3 1.0) 0.0 0.0 0.0 (mkVec3 5.4 0.01 1.8) ;;
  SetShaderColor 0.18 0.19 0.19 1.0 ;;
  SetShaderTexture "paperTowel" ;;
  SetShaderMaterial "plastic" ;;
  emit (DrawMesh CylinderMesh) ;;
  SetTransformations (mkVec3 0.25 0.01 0.25) 0.0 0.0 4.0 (mkVec3 5.4 2.34 1.8) ;;
  SetShaderColor 0.28 0.23 0.15 1.0 ;;
  emit (DrawMesh SphereMesh).

Definition createFlowerPot : M unit :=
  SetTransformations (mkVec3 0.15 0.4 0.15) 0.0 0.0 0.0 (mkVec3 (-6.9) 2.0 1.2) ;;
  SetShaderColor 0.18 0.19 0.19 1.0 ;;
  SetShaderTexture "vase" ;;
  SetShaderMaterial "glass" ;;
  emit (DrawMesh CylinderMesh) ;;
  SetTransformations (mkVec3 0.13 0.01 0.13) 0.0 0.0 0.0 (mkVec3 (-6.9) 2.4 1.2) ;;
  SetShaderColor 0.0 0.0 0.0 1.0 ;;
  emit (DrawMesh CylinderMesh) ;;
  SetTransformations (mkVec3 0.7 0.9 0.5) 0.0 0.0 0.0 (mkVec3 (-6.9) 1.0 1.2) ;;
  SetShaderColor 0.18 0.19 0.19 1.0 ;;
  SetShaderMaterial "glass" ;;
  SetShaderTexture "vase" ;;
  emit (DrawMesh SphereMesh) ;;
  SetTransformations (mkVec3 0.40 0.7 0.40) 0.0 0.0 0.0 (mkVec3 (-6.9) 1.5 1.2) ;;
  SetShaderColor 0.18 0.19 0.19 1.0 ;;
  SetShaderMaterial "glass" ;;
  SetShaderTexture "vase" ;;
  emit (DrawMesh ConeMesh) ;;
  SetTransformations (mkVec3 0.55 0.7 0.5) 0.0 0.0 0.0 (mkVec3 (-6.9) 0.0 1.2) ;;
  SetShaderColor 0.18 0.19 0.19 1.0 ;;
  SetShaderTexture "vase" ;;
  SetShaderMaterial "plastic" ;;
  emit (DrawMesh ConeMesh).

Definition createCoffeeMug : M unit :=
  SetTransformations (mkVec3 0.6 0.32 0.0) 0.0 0.0 0.0 (mkVec3 3.4 0.6 3.0) ;;
  SetShaderColor 0.0 0.48 0.89 1.0 ;;
  SetShaderMaterial "glass" ;;
  emit (DrawMesh TorusMesh) ;;
  SetTransformations (mkVec3 0.48 0.12 0.48) 0.0 0.0 4.0 (mkVec3 2.9 1.14 3.0) ;;
  SetShaderColor 0.0 0.18 0.50 1.0 ;;
  emit (DrawMesh SphereMesh) ;;
  SetTransformations (mkVec3 0.5 1.2 0.5) 0.0 0.0 4.0 (mkVec3 3.0 0.0 3.0) ;;
  SetShaderColor 0.0 0.48 0.89 1.0 ;;
  SetShaderMaterial "glass" ;;
  emit (DrawMesh CylinderMesh).

Definition createTable : M unit :=
  SetTransformations (mkVec3 20.0 0.2 10.0) 0.0 0.0 0.0 (mkVec3 0.0 (-0.1) 0.0) ;;
  SetShaderTexture "table" ;;
  SetShaderMaterial "wood" ;;
  emit (DrawMesh BoxMesh).

Definition createWall : M unit :=
  SetTransformations (mkVec3 10.0 2.0 5.0) 90.0 0.0 0.0 (mkVec3 0.0 5.0 (-5.0)) ;;
  SetShaderTexture "wall" ;;
  SetShaderMaterial "wood" ;;
  emit (DrawMesh PlaneMesh).

(** [RenderScene()]. *)
Definition RenderScene : M unit :=
  createCoffeeMug ;;
  createDesktop ;;
  createTable ;;
  createPaperTowel ;;
  createFlowerPot ;;
  createWall.

End Shader.

(* ================================================================== *)
(** ** Specification-side notions *)

(** The first cell at or after [i], among [count] cells, whose tag is
    [tag]: what a first-match scan in insertion order should find. *)
Fixpoint first_match (cells : Z -> TEXTURE_INFO) (tag : string) (count : nat)
         (i : Z) : option Z :=
  match count with
  | O => None
  | S k =>
      if String.eqb (TextureInfo.tag (cells i)) tag then Some i
      else first_match cells tag k (i + 1)
  end.

(** The common shape of the two lookup loops; [v] is the value assigned to
    the result when the cell at [index] matches. *)
Definition scan_body (v : Z -> Z) (tag : string) (s : State) (l : scan_locals)
  : scan_locals :=
  let '(r, index, bFound) := l in
  if String.eqb (TextureInfo.tag (m_textureIDs s index)) tag
  then (v index, index, true)
  else (r, index + 1, bFound).

(** A tag is unresolved when no registered cell carries it. *)
Definition unresolved (tag : string) (s : State) : Prop :=
  forall k, 0 <= k < m_loadedTextures s ->
            TextureInfo.tag (m_textureIDs s k) <> tag.

(** The entry of the catalog a first-match scan should find. *)
Definition find_material (tag : string) (l : list OBJECT_MATERIAL)
  : option OBJECT_MATERIAL :=
  List.find (fun e => String.eqb (ObjectMaterial.tag e) tag) l.

(** Whether [CreateGLTexture] registers the file: it decodes and has three
    or four channels. *)
Definition accepted (E : Environment) (filename : string) : bool :=
  match stbi_load E filename with
  | Some img => (colorChannels img =? 3) || (colorChannels img =? 4)
  | None => false
  end.

(** A caller that registers a list of [(filename, tag)] requests in order,
    as [LoadSceneTextures] does for its five files, and collects the
    results. *)
Fixpoint register_all (E : Environment) (requests : list (string * string))
  : M (list bool) :=
  match requests with
  | [] => ret []
  | (filename, tag) :: rest =>
      b <- CreateGLTexture E filename tag ;;
      bs <- register_all E rest ;;
      ret (b :: bs)
  end.

(** The tags of the requests that are registered, in order. *)
Definition registered_tags (E : Environment) (requests : list (string * string))
  : list string :=
  map snd (filter (fun r => accepted E (fst r)) requests).

(** The texture units made active by a sequence of calls. *)
Fixpoint bound_units (calls : list call) : list Z :=
  match calls with
  | [] => []
  | glActiveTexture u :: rest => u :: bound_units rest
  | _ :: rest => bound_units rest
  end.

(** The calls [BindGLTextures] makes for the slots [i], [i+1], ... *)
Fixpoint bind_calls (cells : Z -> TEXTURE_INFO) (count : nat) (i : Z) : list call :=
  match count with
  | O => []
  | S k =>
      glActiveTexture (GL_TEXTURE0 + i)
      :: glBindTexture GL_TEXTURE_2D (TextureInfo.ID (cells i))
      :: bind_calls cells k (i + 1)
  end.

(** A manager that has registered nothing yet. *)
Definition empty_cell : TEXTURE_INFO := TextureInfo.mk 0 EmptyString.

Definition fresh_state (sh : option ShaderManager) : State :=
  mkState sh (fun _ => empty_cell) 0 [] [].

(** Two states describe the same scene when they agree on the registry and
    the catalog and either both or neither have a shader manager. *)
Definition has_shader (s : State) : bool :=
  match m_pShaderManager s with Some _ => true | None => false end.

Definition same_scene (s1 s2 : State) : Prop :=
  m_textureIDs s1 = m_textureIDs s2 /\
  m_loadedTextures s1 = m_loadedTextures s2 /\
  m_objectMaterials s1 = m_objectMaterials s2 /\
  has_shader s1 = has_shader s2.

(** The catalog resolves every material tag the builders use. *)
Definition resolves_scene_materials (l : list OBJECT_MATERIAL) : Prop :=
  find_material "plastic" l <> None /\
  find_material "wood" l <> None /\
  find_material "glass" l <> None.

(* ------------------------------------------------------------------ *)
(** *** The transform as the specification words it *)

Module Textbook.

Local Open Scope R_scope.

(** A matrix given by its rows (the storage is by columns). *)
Definition of_rows (r0 r1 r2 r3 : vec4) : mat4 :=
  mkMat4 (mkVec4 (x4 r0) (x4 r1) (x4 r2) (x4 r3))
         (mkVec4 (y4 r0) (y4 r1) (y4 r2) (y4 r3))
         (mkVec4 (z4 r0) (z4 r1) (z4 r2) (z4 r3))
         (mkVec4 (w4 r0) (w4 r1) (w4 r2) (w4 r3)).

Definition row0 (m : mat4) : vec4 :=
  mkVec4 (x4 (col0 m)) (x4 (col1 m)) (x4 (col2 m)) (x4 (col3 m)).
Definition row1 (m : mat4) : vec4 :=
  mkVec4 (y4 (col0 m)) (y4 (col1 m)) (y4 (col2 m)) (y4 (col3 m)).
Definition row2 (m : mat4) : vec4 :=
  mkVec4 (z4 (col0 m)) (z4 (col1 m)) (z4 (col2 m)) (z4 (col3 m)).
Definition row3 (m : mat4) : vec4 :=
  mkVec4 (w4 (col0 m)) (w4 (col1 m)) (w4 (col2 m)) (w4 (col3 m)).

Definition dot4 (a b : vec4) : R :=
  x4 a * x4 b + y4 a * y4 b + z4 a * z4 b + w4 a * w4 b.

(** Row-by-column product: entry (r, c) is row r of [a] times column c of [b]. *)
Definition product_col (a : mat4) (c : vec4) : vec4 :=
  mkVec4 (dot4 (row0 a) c) (dot4 (row1 a) c) (dot4 (row2 a) c) (dot4 (row3 a) c).

Definition product (a b : mat4) : mat4 :=
  mkMat4 (product_col a (col0 b)) (product_col a (col1 b))
         (product_col a (col2 b)) (product_col a (col3 b)).

Definition identity : mat4 :=
  of_rows (mkVec4 1 0 0 0) (mkVec4 0 1 0 0) (mkVec4 0 0 1 0) (mkVec4 0 0 0 1).

Definition degrees_to_radians (d : R) : R := d * PI / 180.

Definition scaling (s : vec3) : mat4 :=
  of_rows (mkVec4 (x3 s) 0 0 0) (mkVec4 0 (y3 s) 0 0) (mkVec4 0 0 (z3 s) 0)
          (mkVec4 0 0 0 1).

Definition translation (t : vec3) : mat4 :=
  of_rows (mkVec4 1 0 0 (x3 t)) (mkVec4 0 1 0 (y3 t)) (mkVec4 0 0 1 (z3 t))
          (mkVec4 0 0 0 1).

Definition rotationX (a : R) : mat4 :=
  of_rows (mkVec4 1 0 0 0) (mkVec4 0 (cos a) (- sin a) 0)
          (mkVec4 0 (sin a) (cos a) 0) (mkVec4 0 0 0 1).

Definition rotationY (a : R) : mat4 :=
  of_rows (mkVec4 (cos a) 0 (sin a) 0) (mkVec4 0 1 0 0)
          (mkVec4 (- sin a) 0 (cos a) 0) (mkVec4 0 0 0 1).

Definition rotationZ (a : R) : mat4 :=
  of_rows (mkVec4 (cos a) (- sin a) 0 0) (mkVec4 (sin a) (cos a) 0 0)
          (mkVec4 0 0 1 0) (mkVec4 0 0 0 1).

(** translation x rotationX x rotationY x rotationZ x scale, angles in degrees. *)
Definition compose (scale : vec3) (xdeg ydeg zdeg : R) (position : vec3) : mat4 :=
  product (translation position)
    (product (rotationX (degrees_to_radians xdeg))
       (product (rotationY (degrees_to_radians ydeg))
          (product (rotationZ (degrees_to_radians zdeg)) (scaling scale)))).

End Textbook.

(* ------------------------------------------------------------------ *)
(** *** Concrete environments and states used in examples *)

Module Examples.

Local Open Scope R_scope.

Definition zero_material : OBJECT_MATERIAL :=
  ObjectMaterial.mk (mkVec3 0 0 0) 0 (mkVec3 0 0 0) (mkVec3 0 0 0) 0 EmptyString.

(** Another possible content of an uninitialised local. *)
Definition other_material : OBJECT_MATERIAL :=
  ObjectMaterial.mk (mkVec3 1 1 1) 1 (mkVec3 1 1 1) (mkVec3 1 1 1) 1 EmptyString.

(** A driver that hands out 1, 2, 3, ... *)
Definition sequential_names (names : list Z) : Z :=
  (1 + Z.of_nat (List.length names))%Z.

(** Every file decodes to a 64 x 64 image with [channels] channels. *)
Definition env_channels (channels : Z) : Environment :=
  mkEnv (fun _ => Some (mkImage 64 64 channels)) sequential_names zero_material.

Definition env_rgb : Environment := env_channels 3.
Definition env_two_channels : Environment := env_channels 2.

(** A driver whose first texture name is the largest [GLuint]. *)
Definition env_last_name : Environment :=
  mkEnv (fun _ => Some (mkImage 64 64 3)) (fun _ => 4294967295%Z) zero_material.

(** Seventeen files, tagged "t0" ... "t16" by position. *)
Definition seventeen_requests : list (string * string) :=
  map (fun t => ("textures/x.jpg", t))
      ["t0"; "t1"; "t2"; "t3"; "t4"; "t5"; "t6"; "t7"; "t8"; "t9"; "t10";
       "t11"; "t12"; "t13"; "t14"; "t15"; "t16"].

(** A manager with a shader attached, after [DefineObjectMaterials]. *)
Definition seed_catalog : list OBJECT_MATERIAL :=
  [plasticMaterial; woodMaterial; glassMaterial].

Definition seeded_state : State :=
  with_objectMaterials seed_catalog (fresh_state (Some [])).

(** The same manager once a frame has left uniforms in the shader manager. *)
Definition later_state : State :=
  with_shader (Some [("bUseTexture", UInt 1%Z)]) seeded_state.

End Examples.

(* ------------------------------------------------------------------ *)
(** *** Two runs of the same code *)

(** [m1] and [m2] agree on catalogs satisfying [P]: started in states that
    describe the same scene they either both return - the same value, the
    same calls in the same order, and states that still describe that
    scene - or both dereference the null shader manager, which happens only
    with no shader manager and a non-empty catalog. *)
Definition agree_on (P : list OBJECT_MATERIAL -> Prop) {A} (m1 m2 : M A) : Prop :=
  forall s1 s2,
    same_scene s1 s2 -> P (m_objectMaterials s1) ->
    match m1 s1, m2 s2 with
    | Returns a1 t1 c1, Returns a2 t2 c2 =>
        a1 = a2 /\ c1 = c2 /\ same_scene s1 t1 /\ same_scene s2 t2
    | NullDereference, NullDereference =>
        has_shader s1 = false /\ m_objectMaterials s1 <> []
    | _, _ => False
    end.

(** The same for code that runs under [if (NULL != m_pShaderManager)]. *)
Definition agree_guarded {A} (m1 m2 : M A) : Prop :=
  forall s1 s2,
    same_scene s1 s2 -> has_shader s1 = true ->
    match m1 s1, m2 s2 with
    | Returns a1 t1 c1, Returns a2 t2 c2 =>
        a1 = a2 /\ c1 = c2 /\ same_scene s1 t1 /\ same_scene s2 t2
    | _, _ => False
    end.

(** When the uninitialised local of [SetShaderMaterial] cannot show: the
    two environments give it the same contents, or every catalog under
    consideration is empty or resolves the tag. *)
Definition material_determined (E1 E2 : Environment)
           (P : list OBJECT_MATERIAL -> Prop) (tag : string) : Prop :=
  indeterminate_material E1 = indeterminate_material E2 \/
  (forall l, P l -> l = [] \/ find_material tag l <> None).

(* ------------------------------------------------------------------ *)
(** *** Notions for the remaining member functions *)

(** The value the attached shader manager holds for a uniform. *)
Definition shader_uniform (name : string) (s : State) : option uniform :=
  match m_pShaderManager s with
  | Some sh => uniform_value name sh
  | None => None
  end.

(** The meshes drawn by a sequence of calls, in order. *)
Fixpoint drawn (calls : list call) : list mesh :=
  match calls with
  | [] => []
  | DrawMesh m :: rest => m :: drawn rest
  | _ :: rest => drawn rest
  end.

(** The files and tags of [LoadSceneTextures], in its order. *)
Definition scene_texture_requests : list (string * string) :=
  [("textures/desktop1.jpg", "monitor");
   ("textures/table.jpg", "table");
   ("textures/paperTowel.jpeg", "paperTowel");
   ("textures/flower.jpg", "vase");
   ("textures/drywall.jpg", "wall")].

(** [m] draws exactly the meshes [l] whenever it returns. *)
Definition draws (m : M unit) (l : list mesh) : Prop :=
  forall s,
    match m s with
    | Returns _ _ calls => drawn calls = l
    | NullDereference => True
    end.

Module MoreExamples.

Local Open Scope R_scope.

(** A manager with one texture, "wall", registered under name 1. *)
Definition one_texture : State :=
  mkState None (store_cell (fun _ => empty_cell) 0 (TextureInfo.mk 1 "wall"))
          1 [] [1%Z].

(** A catalog in which "wood" occurs twice with different shininess. *)
Definition shiny_wood : OBJECT_MATERIAL :=
  ObjectMaterial.mk (mkVec3 0.2 0.2 0.2) 0.3 (mkVec3 0.2 0.2 0.2)
                    (mkVec3 0.5 0.5 0.5) 9.0 "wood".

Definition doubled_wood_state : State :=
  with_objectMaterials [plasticMaterial; woodMaterial; shiny_wood]
                       (fresh_state (Some [])).

(** Only the table and drywall files decode. *)
Definition env_two_files : Environment :=
  mkEnv (fun f => if String.eqb f "textures/table.jpg" then Some (mkImage 64 64 3)
                  else if String.eqb f "textures/drywall.jpg" then Some (mkImage 64 64 4)
                  else None)
        Examples.sequential_names Examples.zero_material.

End MoreExamples.

(** The meshes of one frame, in the order of [RenderScene]: coffee mug,
    desktop, table, paper towel, flower pot, wall. *)
Definition scene_meshes : list mesh :=
  [TorusMesh; SphereMesh; CylinderMesh;
   BoxMesh; BoxMesh; BoxMesh; BoxMesh;
   BoxMesh;
   CylinderMesh; SphereMesh;
   CylinderMesh; CylinderMesh; SphereMesh; ConeMesh; ConeMesh;
   PlaneMesh].

(** [m] runs with a shader manager attached, changes only the uniforms it
    holds, and leaves the uniform [name] as it was. *)
Definition keeps_uniform (name : string) (m : M unit) : Prop :=
  forall s sh,
    m_pShaderManager s = Some sh ->
    exists sh' calls,
      m s = Returns tt (with_shader (Some sh') s) calls /\
      uniform_value name sh' = uniform_value name sh.

(** The fourth unit vector, the last column and row of an affine matrix. *)
Definition unit_w : vec4 := mkVec4 0%R 0%R 0%R 1%R.
(* ================================================================== *)
(** ** Facts about machine integers *)

Lemma int_of_GLuint_small u : 0 <= u < 2 ^ 31 -> Int.int_of_GLuint u = u.
Proof.
  intros H. unfold Int.int_of_GLuint.
  rewrite Z.mod_small by lia. lia.
Qed.

Lemma int_of_GLuint_large u :
  2 ^ 31 <= u < 2 ^ 32 -> Int.int_of_GLuint u = u - 2 ^ 32.
Proof.
  intros H. unfold Int.int_of_GLuint.
  replace (u + 2 ^ 31) with ((u - 2 ^ 31) + 1 * 2 ^ 32) by lia.
  rewrite Z.mod_add by lia.
  rewrite Z.mod_small by lia. lia.
Qed.

Lemma int_of_GLuint_sentinel u :
  Int.is_GLuint u -> (Int.int_of_GLuint u = -1 <-> u = 2 ^ 32 - 1).
Proof.
  unfold Int.is_GLuint, Int.GLuint_modulus. intros H.
  destruct (Z_lt_le_dec u (2 ^ 31)) as [Hs | Hl].
  - rewrite int_of_GLuint_small by lia. lia.
  - rewrite int_of_GLuint_large by lia. lia.
Qed.

(* ================================================================== *)
(** ** Reasoning about the lookup loops *)


Lemma first_match_Some cells tag count :
  forall i j,
    first_match cells tag count i = Some j ->
    i <= j < i + Z.of_nat count /\
    TextureInfo.tag (cells j) = tag /\
    (forall k, i <= k < j -> TextureInfo.tag (cells k) <> tag).
Proof.
  induction count as [| c IH]; intros i j H; simpl in H.
  - discriminate.
  - destruct (String.eqb (TextureInfo.tag (cells i)) tag) eqn:Heq.
    + inversion H; subst j. apply String.eqb_eq in Heq.
      split; [lia | split; [exact Heq | intros k Hk; lia]].
    + apply IH in H. destruct H as (Hr & Ht & Hf).
      apply String.eqb_neq in Heq.
      split; [lia | split; [exact Ht |]].
      intros k Hk. destruct (Z.eq_dec k i) as [-> | Hne]; auto.
      apply Hf. lia.
Qed.

Lemma first_match_None cells tag count :
  forall i,
    first_match cells tag count i = None <->
    (forall k, i <= k < i + Z.of_nat count -> TextureInfo.tag (cells k) <> tag).
Proof.
  induction count as [| c IH]; intros i; simpl.
  - split; auto. intros _ k Hk. lia.
  - destruct (String.eqb (TextureInfo.tag (cells i)) tag) eqn:Heq.
    + apply String.eqb_eq in Heq. split; [discriminate |].
      intros H. exfalso. apply (H i); [lia | exact Heq].
    + apply String.eqb_neq in Heq. rewrite IH. split.
      * intros H k Hk. destruct (Z.eq_dec k i) as [-> | Hne]; auto.
        apply H. lia.
      * intros H k Hk. apply H. lia.
Qed.

(** Cells that agree on the scanned range give the same first match. *)
Lemma first_match_ext cells cells' tag count :
  forall i,
    (forall k, i <= k < i + Z.of_nat count -> cells' k = cells k) ->
    first_match cells' tag count i = first_match cells tag count i.
Proof.
  induction count as [| c IH]; intros i H; simpl; auto.
  rewrite (H i) by lia.
  destruct (String.eqb _ _); auto.
  apply IH. intros k Hk. apply H. lia.
Qed.


Lemma scan_while v tag s count :
  forall i r,
    count = Z.to_nat (m_loadedTextures s - i) ->
    while (S count) (scan_cond s) (scan_body v tag s) (r, i, false) =
    Some match first_match (m_textureIDs s) tag count i with
         | Some j => (v j, j, true)
         | None => (r, i + Z.of_nat count, false)
         end.
Proof.
  induction count as [| c IH]; intros i r Hc.
  - simpl. assert (Hle : m_loadedTextures s - i <= 0) by lia.
    replace (i <? m_loadedTextures s) with false
      by (symmetry; apply Z.ltb_ge; lia).
    simpl. f_equal. f_equal. f_equal. lia.
  - assert (Hlt : i < m_loadedTextures s) by lia.
    change (while (S (S c)) (scan_cond s) (scan_body v tag s) (r, i, false))
      with (if scan_cond s (r, i, false)
            then while (S c) (scan_cond s) (scan_body v tag s)
                       (scan_body v tag s (r, i, false))
            else Some (r, i, false)).
    unfold scan_cond at 1.
    replace (i <? m_loadedTextures s) with true
      by (symmetry; apply Z.ltb_lt; lia).
    cbn [andb Bool.eqb]. unfold scan_body at 2.
    cbn [first_match].
    destruct (String.eqb (TextureInfo.tag (m_textureIDs s i)) tag) eqn:Heq.
    + cbn [while]. unfold scan_cond.
      rewrite andb_false_r. reflexivity.
    + rewrite IH by lia.
      destruct (first_match (m_textureIDs s) tag c (i + 1)); auto.
      f_equal. f_equal. f_equal. lia.
Qed.

(** The budget of the lookup loops is never used up: both loops reach the
    point where their condition is false. *)
Lemma FindTextureSlot_loop_spec tag s :
  FindTextureSlot_loop tag s =
  Some match first_match (m_textureIDs s) tag (Z.to_nat (m_loadedTextures s)) 0 with
       | Some j => (j, j, true)
       | None => (-1, 0 + Z.of_nat (Z.to_nat (m_loadedTextures s)), false)
       end.
Proof.
  unfold FindTextureSlot_loop, scan_budget.
  change (FindTextureSlot_body tag s) with (scan_body (fun i => i) tag s).
  apply scan_while. f_equal. lia.
Qed.

Lemma FindTextureID_loop_spec tag s :
  FindTextureID_loop tag s =
  Some match first_match (m_textureIDs s) tag (Z.to_nat (m_loadedTextures s)) 0 with
       | Some j => (Int.int_of_GLuint (TextureInfo.ID (m_textureIDs s j)), j, true)
       | None => (-1, 0 + Z.of_nat (Z.to_nat (m_loadedTextures s)), false)
       end.
Proof.
  unfold FindTextureID_loop, scan_budget.
  change (FindTextureID_body tag s)
    with (scan_body (fun i => Int.int_of_GLuint (TextureInfo.ID (m_textureIDs s i)))
                    tag s).
  apply scan_while. f_equal. lia.
Qed.

Lemma FindTextureSlot_first_match tag s :
  FindTextureSlot tag s =
  match first_match (m_textureIDs s) tag (Z.to_nat (m_loadedTextures s)) 0 with
  | Some j => j
  | None => -1
  end.
Proof.
  unfold FindTextureSlot. rewrite FindTextureSlot_loop_spec.
  destruct (first_match _ _ _ _); reflexivity.
Qed.

Lemma FindTextureID_first_match tag s :
  FindTextureID tag s =
  match first_match (m_textureIDs s) tag (Z.to_nat (m_loadedTextures s)) 0 with
  | Some j => Int.int_of_GLuint (TextureInfo.ID (m_textureIDs s j))
  | None => -1
  end.
Proof.
  unfold FindTextureID. rewrite FindTextureID_loop_spec.
  destruct (first_match _ _ _ _); reflexivity.
Qed.


Lemma unresolved_first_match tag s :
  unresolved tag s <->
  first_match (m_textureIDs s) tag (Z.to_nat (m_loadedTextures s)) 0 = None.
Proof.
  rewrite first_match_None. unfold unresolved.
  split; intros H k Hk; apply H; lia.
Qed.

Lemma unresolved_lookups tag s :
  unresolved tag s -> FindTextureSlot tag s = -1 /\ FindTextureID tag s = -1.
Proof.
  intros H. apply unresolved_first_match in H.
  rewrite FindTextureSlot_first_match, FindTextureID_first_match, H. auto.
Qed.

Lemma FindTextureSlot_sentinel tag s :
  FindTextureSlot tag s = -1 <-> unresolved tag s.
Proof.
  rewrite unresolved_first_match, FindTextureSlot_first_match.
  destruct (first_match _ _ _ _) as [j |] eqn:Hm.
  - apply first_match_Some in Hm. split; [lia | discriminate].
  - tauto.
Qed.

(* ================================================================== *)
(** ** Registration *)

Ltac unfold_monad :=
  unfold bind, ret, get, put, modify, emit, with_shader, with_textureIDs,
    with_loadedTextures, with_objectMaterials, with_gl_texture_names in *;
  cbn [m_pShaderManager m_textureIDs m_loadedTextures m_objectMaterials
       gl_texture_names app] in *.

(** A registered file: the cell at [m_loadedTextures] receives the new
    texture name and the tag, and the counter goes up by one. *)
Lemma CreateGLTexture_accepted E filename tag s :
  accepted E filename = true ->
  exists calls,
    CreateGLTexture E filename tag s =
    Returns true
      (mkState (m_pShaderManager s)
         (store_cell (m_textureIDs s) (m_loadedTextures s)
            (TextureInfo.mk (glGenTextures_name E (gl_texture_names s)) tag))
         (m_loadedTextures s + 1)
         (m_objectMaterials s)
         (gl_texture_names s ++ [glGenTextures_name E (gl_texture_names s)]))
      calls.
Proof.
  unfold accepted, CreateGLTexture, upload_pixels, gl_GenTextures1.
  destruct (stbi_load E filename) as [img |]; [| discriminate].
  intros H.
  destruct (colorChannels img =? 3) eqn:H3.
  - unfold_monad. eexists. reflexivity.
  - destruct (colorChannels img =? 4) eqn:H4; [| discriminate].
    unfold_monad. eexists. reflexivity.
Qed.

(** A file that is not registered: only the context may have changed (a
    texture name was generated if the file decoded). *)
Lemma CreateGLTexture_rejected E filename tag s :
  accepted E filename = false ->
  exists names calls,
    CreateGLTexture E filename tag s =
    Returns false (with_gl_texture_names names s) calls.
Proof.
  unfold accepted, CreateGLTexture, upload_pixels, gl_GenTextures1.
  destruct (stbi_load E filename) as [img |].
  - intros H. apply orb_false_elim in H. destruct H as [H3 H4].
    rewrite H3, H4. unfold_monad. eexists. eexists. reflexivity.
  - intros _. exists (gl_texture_names s). eexists.
    unfold ret, with_gl_texture_names. destruct s; reflexivity.
Qed.

(** The registry after a list of requests: the counter has advanced by the
    number of registered files, the cells below the old counter are
    untouched, and the new cells carry the registered tags in order. *)
Lemma register_all_spec E requests :
  forall s,
  exists s' calls,
    register_all E requests s =
      Returns (map (fun r => accepted E (fst r)) requests) s' calls /\
    m_loadedTextures s' =
      m_loadedTextures s + Z.of_nat (List.length (registered_tags E requests)) /\
    (forall k, k < m_loadedTextures s -> m_textureIDs s' k = m_textureIDs s k) /\
    (forall j, (j < List.length (registered_tags E requests))%nat ->
       TextureInfo.tag (m_textureIDs s' (m_loadedTextures s + Z.of_nat j)) =
       nth j (registered_tags E requests) EmptyString) /\
    m_objectMaterials s' = m_objectMaterials s /\
    m_pShaderManager s' = m_pShaderManager s.
Proof.
  induction requests as [| [filename tag] rest IH]; intros s.
  - exists s, []. cbn. repeat split; auto; try lia.
    all: intros; cbn in *; lia.
  - cbn [register_all]. unfold registered_tags. cbn [filter fst map].
    fold (registered_tags E rest).
    destruct (accepted E filename) eqn:Hacc.
    + destruct (CreateGLTexture_accepted E filename tag s Hacc) as [c1 H1].
      match type of H1 with _ = Returns _ ?t _ => set (s1 := t) in * end.
      destruct (IH s1) as (s' & c2 & Hrun & Hn & Hframe & Htags & Hm & Hsh).
      exists s', (c1 ++ (c2 ++ []))%list.
      unfold bind at 1. rewrite H1. unfold bind at 1. rewrite Hrun.
      unfold ret. cbn [snd List.length map].
      subst s1. cbn [m_loadedTextures m_textureIDs m_objectMaterials
                     m_pShaderManager] in *.
      fold (registered_tags E rest).
      split; [reflexivity |]. split; [lia |]. split; [| split; [| auto]].
      * intros k Hk. rewrite Hframe by lia.
        unfold store_cell. replace (k =? m_loadedTextures s) with false; auto.
        symmetry. apply Z.eqb_neq. lia.
      * intros [| j] Hj.
        -- rewrite Hframe by lia. unfold store_cell.
           replace (m_loadedTextures s + Z.of_nat 0) with (m_loadedTextures s) by lia.
           rewrite Z.eqb_refl. reflexivity.
        -- replace (m_loadedTextures s + Z.of_nat (S j))
             with (m_loadedTextures s + 1 + Z.of_nat j) by lia.
           rewrite Htags by lia. reflexivity.
    + destruct (CreateGLTexture_rejected E filename tag s Hacc) as (names & c1 & H1).
      destruct (IH (with_gl_texture_names names s))
        as (s' & c2 & Hrun & Hn & Hframe & Htags & Hm & Hsh).
      exists s', (c1 ++ (c2 ++ []))%list.
      unfold bind at 1. rewrite H1. unfold bind at 1. rewrite Hrun.
      unfold ret. cbn [m_loadedTextures m_textureIDs m_objectMaterials
                       m_pShaderManager with_gl_texture_names] in *.
      repeat split; auto.
Qed.

Lemma first_match_intro cells tag count i k :
  i <= k < i + Z.of_nat count ->
  TextureInfo.tag (cells k) = tag ->
  (forall j, i <= j < k -> TextureInfo.tag (cells j) <> tag) ->
  first_match cells tag count i = Some k.
Proof.
  intros Hk Ht Hfirst.
  destruct (first_match cells tag count i) as [j |] eqn:Hm.
  - apply first_match_Some in Hm. destruct Hm as (Hj & Htj & Hfj).
    destruct (Z.lt_trichotomy j k) as [Hlt | [-> | Hgt]]; auto.
    + exfalso. apply (Hfirst j); [lia | exact Htj].
    + exfalso. apply (Hfj k); [lia | exact Ht].
  - exfalso. rewrite first_match_None in Hm. apply (Hm k); [lia | exact Ht].
Qed.

(** C8: a tag that no registered texture carries resolves to the sentinel
    -1 under both FindTextureSlot and FindTextureID, whatever requests
    filled the registry (requests made with that tag which were refused
    included). *)
Theorem lookups_of_unregistered_tag E requests tag s :
  m_loadedTextures s = 0 ->
  ~ In tag (registered_tags E requests) ->
  exists bs s' calls,
    register_all E requests s = Returns bs s' calls /\
    FindTextureSlot tag s' = -1 /\
    FindTextureID tag s' = -1.
Proof.
  intros H0 Hnot.
  destruct (register_all_spec E requests s)
    as (s' & calls & Hrun & Hn & _ & Htags & _).
  exists (map (fun r => accepted E (fst r)) requests), s', calls.
  split; [exact Hrun |].
  apply unresolved_lookups. intros k Hk Heq.
  apply Hnot. rewrite H0 in *.
  specialize (Htags (Z.to_nat k)).
  cbn [Z.add] in Htags. rewrite Z2Nat.id in Htags by lia.
  rewrite <- Heq, Htags by lia.
  apply nth_In. lia.
Qed.

Lemma lookups_of_unregistered_tag_witness :
  exists bs s' calls,
    register_all Examples.env_rgb [("textures/drywall.jpg", "wall")]
                 (fresh_state None) = Returns bs s' calls /\
    FindTextureSlot "table" s' = -1 /\
    FindTextureID "table" s' = -1.
Proof.
  apply (lookups_of_unregistered_tag Examples.env_rgb
           [("textures/drywall.jpg", "wall")] "table" (fresh_state None)).
  - reflexivity.
  - vm_compute. intros [H | []]. discriminate H.
Defined.

(** C4 (amended): in a registry filled from empty with at most 16
    registered textures, the texture registered as number k (0-based,
    counting the registrations that returned true) is found by
    FindTextureSlot at slot k, a value in [0,16), provided no earlier
    registered texture has the same tag. *)
Theorem lookupSlot_of_registered E requests tag k s :
  m_loadedTextures s = 0 ->
  (List.length (registered_tags E requests) <= 16)%nat ->
  nth_error (registered_tags E requests) k = Some tag ->
  (forall j, (j < k)%nat -> nth_error (registered_tags E requests) j <> Some tag) ->
  exists bs s' calls,
    register_all E requests s = Returns bs s' calls /\
    FindTextureSlot tag s' = Z.of_nat k /\
    0 <= FindTextureSlot tag s' < 16 /\
    in_array (FindTextureSlot tag s').
Proof.
  intros H0 H16 Hk Hfirst.
  destruct (register_all_spec E requests s)
    as (s' & calls & Hrun & Hn & _ & Htags & _).
  exists (map (fun r => accepted E (fst r)) requests), s', calls.
  split; [exact Hrun |].
  assert (Hlen : (k < List.length (registered_tags E requests))%nat)
    by (apply nth_error_Some; congruence).
  assert (Hslot : FindTextureSlot tag s' = Z.of_nat k).
  { rewrite FindTextureSlot_first_match.
    rewrite (first_match_intro _ tag _ 0 (Z.of_nat k)); auto.
    - lia.
    - specialize (Htags k Hlen). rewrite H0 in Htags. cbn [Z.add] in Htags.
      rewrite Htags. apply nth_error_nth. exact Hk.
    - intros j Hj Heq.
      apply (Hfirst (Z.to_nat j)); [lia |].
      specialize (Htags (Z.to_nat j)). rewrite H0 in Htags.
      cbn [Z.add] in Htags. rewrite Z2Nat.id in Htags by lia.
      rewrite <- Heq, Htags by lia.
      apply nth_error_nth'. lia. }
  split; [exact Hslot |].
  unfold in_array, TEXTURE_SLOTS. rewrite Hslot. lia.
Qed.

Lemma lookupSlot_of_registered_witness :
  exists bs s' calls,
    register_all Examples.env_rgb
      [("textures/table.jpg", "table"); ("textures/drywall.jpg", "wall")]
      (fresh_state None) = Returns bs s' calls /\
    FindTextureSlot "wall" s' = 1 /\
    0 <= FindTextureSlot "wall" s' < 16 /\
    in_array (FindTextureSlot "wall" s').
Proof.
  apply (lookupSlot_of_registered Examples.env_rgb
           [("textures/table.jpg", "table"); ("textures/drywall.jpg", "wall")]
           "wall" 1 (fresh_state None)).
  - reflexivity.
  - simpl. lia.
  - reflexivity.
  - intros j Hj. assert (j = 0%nat) as -> by lia. vm_compute. discriminate.
Defined.

(** C4 as stated fails for two textures registered under one tag: both
    registrations return true, the second is number 1, and FindTextureSlot
    returns 0 for its tag. *)
Lemma lookupSlot_counterexample :
  match register_all Examples.env_rgb
          [("textures/a.jpg", "wall"); ("textures/b.jpg", "wall")]
          (fresh_state None) with
  | Returns bs s' _ =>
      bs = [true; true] /\
      nth_error (registered_tags Examples.env_rgb
                   [("textures/a.jpg", "wall"); ("textures/b.jpg", "wall")]) 1
        = Some "wall" /\
      FindTextureSlot "wall" s' = 0 /\
      FindTextureSlot "wall" s' <> 1
  | NullDereference => False
  end.
Proof.
  vm_compute. repeat split; try reflexivity. discriminate.
Qed.

(* ================================================================== *)
(** ** The two lookups select the same entry *)

(** C10 (amended): FindTextureSlot returning -1 implies FindTextureID
    returns -1; otherwise both scans stop at the same first matching cell
    and FindTextureID returns that cell's handle converted from GLuint to
    int.  FindTextureID returning -1 implies FindTextureSlot returning -1
    when no stored handle is 4294967295, and the value returned is the
    stored handle itself when the stored handles are below 2^31. *)
Theorem FindTextureID_agrees_with_FindTextureSlot tag s :
  (FindTextureSlot tag s = -1 -> FindTextureID tag s = -1) /\
  (FindTextureSlot tag s <> -1 ->
     0 <= FindTextureSlot tag s < m_loadedTextures s /\
     TextureInfo.tag (m_textureIDs s (FindTextureSlot tag s)) = tag /\
     (forall k, 0 <= k < FindTextureSlot tag s ->
                TextureInfo.tag (m_textureIDs s k) <> tag) /\
     FindTextureID tag s =
       Int.int_of_GLuint (TextureInfo.ID (m_textureIDs s (FindTextureSlot tag s)))) /\
  ((forall k, 0 <= k < m_loadedTextures s ->
              Int.is_GLuint (TextureInfo.ID (m_textureIDs s k)) /\
              TextureInfo.ID (m_textureIDs s k) <> 4294967295) ->
     (FindTextureSlot tag s = -1 <-> FindTextureID tag s = -1)) /\
  ((forall k, 0 <= k < m_loadedTextures s ->
              0 <= TextureInfo.ID (m_textureIDs s k) < 2 ^ 31) ->
     FindTextureSlot tag s <> -1 ->
     FindTextureID tag s =
       TextureInfo.ID (m_textureIDs s (FindTextureSlot tag s))).
Proof.
  rewrite FindTextureSlot_first_match, FindTextureID_first_match.
  destruct (first_match (m_textureIDs s) tag (Z.to_nat (m_loadedTextures s)) 0)
    as [j |] eqn:Hm.
  - apply first_match_Some in Hm. destruct Hm as (Hj & Ht & Hfirst).
    split; [lia |]. split; [| split].
    + intros _. repeat split; auto; lia.
    + intros Hvalid. destruct (Hvalid j) as [Hu Hne]; [lia |].
      split; [lia |]. intros Hid.
      apply int_of_GLuint_sentinel in Hid; [| exact Hu].
      exfalso. apply Hne. rewrite Hid. reflexivity.
    + intros Hsmall _. apply int_of_GLuint_small. apply Hsmall. lia.
  - split; [reflexivity |]. split; [congruence |].
    split; [tauto | congruence].
Qed.

(** C10 as stated fails when the driver hands out the texture name
    4294967295: the texture is registered in slot 0, FindTextureSlot finds
    it, and FindTextureID returns -1 for it. *)
Lemma FindTextureID_sentinel_counterexample :
  match CreateGLTexture Examples.env_last_name "textures/drywall.jpg" "wall"
          (fresh_state None) with
  | Returns b s _ =>
      b = true /\
      TextureInfo.ID (m_textureIDs s 0) = 4294967295 /\
      FindTextureSlot "wall" s = 0 /\
      FindTextureID "wall" s = -1 /\
      ~ (FindTextureSlot "wall" s = -1 <-> FindTextureID "wall" s = -1) /\
      FindTextureID "wall" s <>
        TextureInfo.ID (m_textureIDs s (FindTextureSlot "wall" s))
  | NullDereference => False
  end.
Proof.
  vm_compute. repeat split; try reflexivity.
  - intros [_ H]. specialize (H eq_refl). discriminate H.
  - discriminate.
Qed.

(* ================================================================== *)
(** ** Unsupported channel counts *)

Lemma lookups_depend_on_registry tag s s' :
  m_textureIDs s' = m_textureIDs s ->
  m_loadedTextures s' = m_loadedTextures s ->
  FindTextureSlot tag s' = FindTextureSlot tag s /\
  FindTextureID tag s' = FindTextureID tag s.
Proof.
  intros Hc Hn.
  rewrite !FindTextureSlot_first_match, !FindTextureID_first_match, Hc, Hn.
  auto.
Qed.

(** C7: when the decoded image has neither 3 nor 4 channels,
    CreateGLTexture returns false, m_loadedTextures and the cells are
    unchanged, every lookup answers as before, and a tag that was
    unresolved is still unresolved: both lookups return -1 on it. *)
Theorem CreateGLTexture_unsupported_channels E filename tag img s :
  stbi_load E filename = Some img ->
  colorChannels img <> 3 ->
  colorChannels img <> 4 ->
  exists s' calls,
    CreateGLTexture E filename tag s = Returns false s' calls /\
    m_loadedTextures s' = m_loadedTextures s /\
    m_textureIDs s' = m_textureIDs s /\
    (forall t, FindTextureSlot t s' = FindTextureSlot t s /\
               FindTextureID t s' = FindTextureID t s) /\
    (unresolved tag s ->
       unresolved tag s' /\
       FindTextureSlot tag s' = -1 /\ FindTextureID tag s' = -1).
Proof.
  intros Hload H3 H4.
  assert (Hacc : accepted E filename = false).
  { unfold accepted. rewrite Hload.
    apply Z.eqb_neq in H3, H4. rewrite H3, H4. reflexivity. }
  destruct (CreateGLTexture_rejected E filename tag s Hacc) as (names & calls & Hrun).
  exists (with_gl_texture_names names s), calls.
  split; [exact Hrun |]. split; [reflexivity |]. split; [reflexivity |].
  split.
  - intros t. apply lookups_depend_on_registry; reflexivity.
  - intros Hun.
    assert (Hun' : unresolved tag (with_gl_texture_names names s)) by exact Hun.
    split; [exact Hun' |]. apply unresolved_lookups. exact Hun'.
Qed.

Lemma CreateGLTexture_unsupported_channels_witness :
  exists s' calls,
    CreateGLTexture Examples.env_two_channels "textures/gray.png" "gray"
                    (fresh_state None) = Returns false s' calls /\
    m_loadedTextures s' = m_loadedTextures (fresh_state None) /\
    m_textureIDs s' = m_textureIDs (fresh_state None) /\
    (forall t, FindTextureSlot t s' = FindTextureSlot t (fresh_state None) /\
               FindTextureID t s' = FindTextureID t (fresh_state None)) /\
    (unresolved "gray" (fresh_state None) ->
       unresolved "gray" s' /\
       FindTextureSlot "gray" s' = -1 /\ FindTextureID "gray" s' = -1).
Proof.
  apply (CreateGLTexture_unsupported_channels Examples.env_two_channels
           "textures/gray.png" "gray" (mkImage 64 64 2) (fresh_state None)).
  - reflexivity.
  - simpl. lia.
  - simpl. lia.
Defined.

(** The fresh registry resolves no tag, so the premise of the last part of
    C7 is met in the example. *)
Lemma fresh_state_unresolved sh tag : unresolved tag (fresh_state sh).
Proof. intros k Hk. simpl in Hk. lia. Qed.

(* ================================================================== *)
(** ** Binding and releasing *)

Lemma for_loop_bind_calls count :
  forall i s,
    for_loop count i (fun i =>
      emit (glActiveTexture (GL_TEXTURE0 + i)) ;;
      s <- get ;;
      emit (glBindTexture GL_TEXTURE_2D (TextureInfo.ID (m_textureIDs s i)))) s =
    Returns tt s (bind_calls (m_textureIDs s) count i).
Proof.
  induction count as [| c IH]; intros i s.
  - reflexivity.
  - cbn [for_loop bind_calls]. unfold bind at 1.
    unfold bind at 1, emit at 1. unfold bind at 1, get, emit.
    rewrite IH. reflexivity.
Qed.

Lemma bound_units_bind_calls cells count :
  forall i,
    List.length (bound_units (bind_calls cells count i)) = count /\
    (forall u, In u (bound_units (bind_calls cells count i)) ->
               GL_TEXTURE0 + i <= u < GL_TEXTURE0 + i + Z.of_nat count) /\
    NoDup (bound_units (bind_calls cells count i)).
Proof.
  induction count as [| c IH]; intros i; cbn [bind_calls bound_units].
  - split; [reflexivity | split; [intros u [] | constructor]].
  - destruct (IH (i + 1)) as (Hlen & Hrange & Hnd).
    split; [cbn; lia |]. split.
    + intros u [<- | Hin]; [lia |]. apply Hrange in Hin. lia.
    + constructor; auto. intros Hin. apply Hrange in Hin. lia.
Qed.

(** BindGLTextures makes one texture unit active per registered texture -
    unit GL_TEXTURE0 + i for slot i, bound to the handle in cell i - so it
    binds exactly m_loadedTextures distinct units: at most 16 exactly when
    the counter is at most 16. *)
Lemma BindGLTextures_binds_every_slot s :
  BindGLTextures s =
    Returns tt s (bind_calls (m_textureIDs s) (Z.to_nat (m_loadedTextures s)) 0) /\
  List.length (bound_units
    (bind_calls (m_textureIDs s) (Z.to_nat (m_loadedTextures s)) 0)) =
    Z.to_nat (m_loadedTextures s) /\
  NoDup (bound_units
    (bind_calls (m_textureIDs s) (Z.to_nat (m_loadedTextures s)) 0)) /\
  ((List.length (bound_units
      (bind_calls (m_textureIDs s) (Z.to_nat (m_loadedTextures s)) 0)) <= 16)%nat
   <-> m_loadedTextures s <= 16).
Proof.
  destruct (bound_units_bind_calls (m_textureIDs s)
              (Z.to_nat (m_loadedTextures s)) 0) as (Hlen & _ & Hnd).
  split.
  - unfold BindGLTextures. unfold bind at 1, get.
    rewrite for_loop_bind_calls. reflexivity.
  - split; [exact Hlen |]. split; [exact Hnd |]. rewrite Hlen. lia.
Qed.

(** While the registrations stay within the array the bound of 16 units
    holds: a registry filled from empty by requests of which at most 16
    are accepted binds at most 16 units. *)
Lemma BindGLTextures_within_capacity E requests s :
  m_loadedTextures s = 0 ->
  (List.length (registered_tags E requests) <= 16)%nat ->
  exists bs s' c calls,
    register_all E requests s = Returns bs s' c /\
    BindGLTextures s' = Returns tt s' calls /\
    (List.length (bound_units calls) <= 16)%nat.
Proof.
  intros H0 H16.
  destruct (register_all_spec E requests s) as (s' & c & Hrun & Hn & _).
  destruct (BindGLTextures_binds_every_slot s') as (Hbind & Hlen & _).
  eexists _, s', c, _. split; [exact Hrun |]. split; [exact Hbind |].
  rewrite Hlen. lia.
Qed.

(** C3 fails on the code: CreateGLTexture has no test against the sixteen
    slots of the array.  Sixteen registrations fill the cells 0 to 15 and
    leave m_loadedTextures at 16; the seventeenth call is not refused: it
    returns true, its store is addressed to index 16, which is not a cell
    of the array, and it raises the counter to 17; BindGLTextures then
    makes seventeen distinct texture units active. *)
Theorem BindGLTextures_past_capacity :
  match register_all Examples.env_rgb (firstn 16 Examples.seventeen_requests)
          (fresh_state None) with
  | Returns bs s16 _ =>
      bs = repeat true 16 /\
      m_loadedTextures s16 = TEXTURE_SLOTS /\
      ~ in_array (m_loadedTextures s16) /\
      match CreateGLTexture Examples.env_rgb "textures/x.jpg" "t16" s16 with
      | Returns b s17 _ =>
          b = true /\
          m_textureIDs s17 (m_loadedTextures s16) = TextureInfo.mk 17 "t16" /\
          m_loadedTextures s17 = 17 /\
          match BindGLTextures s17 with
          | Returns _ _ calls =>
              bound_units calls =
                map (fun i => GL_TEXTURE0 + i)
                    [0; 1; 2; 3; 4; 5; 6; 7; 8; 9; 10; 11; 12; 13; 14; 15; 16] /\
              ~ (List.length (bound_units calls) <= 16)%nat
          | NullDereference => False
          end
      | NullDereference => False
      end
  | NullDereference => False
  end.
Proof.
  vm_compute. repeat split; try reflexivity.
  - intros [_ H]. discriminate H.
  - intros H. repeat (apply le_S_n in H). inversion H.
Qed.

Lemma DestroyGLTextures_step E i s :
  (name <- gl_GenTextures1 E ;;
   modify (fun s =>
     with_textureIDs
       (store_cell (m_textureIDs s) i
          (TextureInfo.mk name (TextureInfo.tag (m_textureIDs s i)))) s)) s =
  Returns tt
    (mkState (m_pShaderManager s)
       (store_cell (m_textureIDs s) i
          (TextureInfo.mk (glGenTextures_name E (gl_texture_names s))
                          (TextureInfo.tag (m_textureIDs s i))))
       (m_loadedTextures s) (m_objectMaterials s)
       (gl_texture_names s ++ [glGenTextures_name E (gl_texture_names s)]))
    [glGenTextures 1 (glGenTextures_name E (gl_texture_names s))].
Proof. reflexivity. Qed.

(** The loop of DestroyGLTextures only generates names: the names in use
    before are still in use afterwards, one more per registered texture. *)
Lemma DestroyGLTextures_loop E count :
  forall i s,
  exists s' extra,
    for_loop count i (fun i =>
      name <- gl_GenTextures1 E ;;
      modify (fun s =>
        with_textureIDs
          (store_cell (m_textureIDs s) i
             (TextureInfo.mk name (TextureInfo.tag (m_textureIDs s i)))) s)) s =
    Returns tt s' (map (glGenTextures 1) extra) /\
    gl_texture_names s' = (gl_texture_names s ++ extra)%list /\
    List.length extra = count /\
    m_loadedTextures s' = m_loadedTextures s.
Proof.
  induction count as [| c IH]; intros i s.
  - exists s, []. cbn. rewrite app_nil_r. auto.
  - cbn [for_loop]. unfold bind at 1.
    rewrite DestroyGLTextures_step.
    match goal with
    | |- context [for_loop c (i + 1) _ ?t] =>
        destruct (IH (i + 1) t) as (s' & extra & Hrun & Hnames & Hlen & Hn)
    end.
    rewrite Hrun.
    exists s', (glGenTextures_name E (gl_texture_names s) :: extra).
    cbn [m_loadedTextures gl_texture_names] in *.
    repeat split; auto.
    + rewrite Hnames, <- app_assoc. reflexivity.
    + cbn. lia.
Qed.

Lemma DestroyGLTextures_generates E s :
  exists s' extra,
    DestroyGLTextures E s = Returns tt s' (map (glGenTextures 1) extra) /\
    gl_texture_names s' = (gl_texture_names s ++ extra)%list /\
    List.length extra = Z.to_nat (m_loadedTextures s).
Proof.
  unfold DestroyGLTextures. unfold bind at 1, get.
  destruct (DestroyGLTextures_loop E (Z.to_nat (m_loadedTextures s)) 0 s)
    as (s' & extra & Hrun & Hnames & Hlen & _).
  rewrite Hrun. exists s', extra. auto.
Qed.

(** C2 fails on the code: with one texture registered under name 1,
    DestroyGLTextures makes the single call glGenTextures(1, ...), which
    yields name 2; name 1 is still in use in the context, and the registry
    now holds name 2 for the tag. *)
Theorem DestroyGLTextures_regenerates :
  match register_all Examples.env_rgb [("textures/drywall.jpg", "wall")]
          (fresh_state None) with
  | Returns _ s _ =>
      gl_texture_names s = [1] /\
      FindTextureID "wall" s = 1 /\
      match DestroyGLTextures Examples.env_rgb s with
      | Returns _ s' calls =>
          calls = [glGenTextures 1 2] /\
          gl_texture_names s' = [1; 2] /\
          m_loadedTextures s' = 1 /\
          FindTextureID "wall" s' = 2
      | NullDereference => False
      end
  | NullDereference => False
  end.
Proof.
  vm_compute. repeat split; reflexivity.
Qed.

(* ================================================================== *)
(** ** The material catalog *)

Lemma skipn_cons_nth_error {A} (l : list A) :
  forall idx e, nth_error l idx = Some e -> skipn idx l = e :: skipn (S idx) l.
Proof.
  induction l as [| a l IH]; intros [| idx] e H; simpl in H; try discriminate.
  - inversion H. reflexivity.
  - apply (IH idx e H).
Qed.

(** The loop of FindMaterial, started at [idx] with [bFound = false],
    leaves in [material] the first matching entry from [idx] on, if any. *)
Lemma FindMaterial_while tag s k :
  forall idx material,
    k = (List.length (m_objectMaterials s) - idx)%nat ->
    option_map snd
      (while (S k) (FindMaterial_cond s) (FindMaterial_body tag s)
             (idx, false, material)) =
    Some match find_material tag (skipn idx (m_objectMaterials s)) with
         | Some e => copy_material e material
         | None => material
         end.
Proof.
  induction k as [| k IH]; intros idx material Hk.
  - cbn [while]. unfold FindMaterial_cond.
    replace (idx <? List.length (m_objectMaterials s))%nat with false
      by (symmetry; apply Nat.ltb_ge; lia).
    cbn [andb option_map snd].
    rewrite skipn_all2 by lia. reflexivity.
  - assert (Hlt : (idx < List.length (m_objectMaterials s))%nat) by lia.
    destruct (nth_error (m_objectMaterials s) idx) as [e |] eqn:Hnth;
      [| apply nth_error_None in Hnth; lia].
    change (while (S (S k)) (FindMaterial_cond s) (FindMaterial_body tag s)
                  (idx, false, material))
      with (if FindMaterial_cond s (idx, false, material)
            then while (S k) (FindMaterial_cond s) (FindMaterial_body tag s)
                       (FindMaterial_body tag s (idx, false, material))
            else Some (idx, false, material)).
    unfold FindMaterial_cond at 1.
    replace (idx <? List.length (m_objectMaterials s))%nat with true
      by (symmetry; apply Nat.ltb_lt; lia).
    cbn [andb Bool.eqb]. unfold FindMaterial_body at 2. rewrite Hnth.
    rewrite (skipn_cons_nth_error _ _ _ Hnth).
    unfold find_material. cbn [find]. fold (find_material tag).
    destruct (String.eqb (ObjectMaterial.tag e) tag).
    + cbn [while]. unfold FindMaterial_cond. rewrite andb_false_r. reflexivity.
    + apply IH. lia.
Qed.

(** FindMaterial returns false only for the empty catalog; for any other
    catalog it returns true, whether or not an entry matched. *)
Lemma FindMaterial_spec tag material s :
  FindMaterial tag material s =
  if (List.length (m_objectMaterials s) =? 0)%nat then (false, material)
  else (true, match find_material tag (m_objectMaterials s) with
              | Some e => copy_material e material
              | None => material
              end).
Proof.
  unfold FindMaterial, FindMaterial_loop.
  destruct (List.length (m_objectMaterials s) =? 0)%nat; [reflexivity |].
  pose proof (FindMaterial_while tag s (List.length (m_objectMaterials s)) 0%nat
                material) as H.
  rewrite Nat.sub_0_r in H. specialize (H eq_refl). cbn [skipn] in H.
  destruct (while _ _ _ _) as [[[i b] m] |]; cbn [option_map snd] in H.
  - inversion H. reflexivity.
  - discriminate.
Qed.

(** The five uniforms SetShaderMaterial sets for a material. *)
Lemma SetShaderMaterial_nonempty E tag s sh :
  m_pShaderManager s = Some sh ->
  m_objectMaterials s <> [] ->
  let material := match find_material tag (m_objectMaterials s) with
                  | Some e => copy_material e (indeterminate_material E)
                  | None => indeterminate_material E
                  end in
  SetShaderMaterial E tag s =
  Returns tt
    (with_shader (Some
       ([("material.shininess", UFloat (ObjectMaterial.shininess material));
        ("material.specularColor", UVec3 (ObjectMaterial.specularColor material));
        ("material.diffuseColor", UVec3 (ObjectMaterial.diffuseColor material));
        ("material.ambientStrength", UFloat (ObjectMaterial.ambientStrength material));
        ("material.ambientColor", UVec3 (ObjectMaterial.ambientColor material))]
       ++ sh)%list) s)
    [setVec3Value "material.ambientColor" (ObjectMaterial.ambientColor material);
     setFloatValue "material.ambientStrength" (ObjectMaterial.ambientStrength material);
     setVec3Value "material.diffuseColor" (ObjectMaterial.diffuseColor material);
     setVec3Value "material.specularColor" (ObjectMaterial.specularColor material);
     setFloatValue "material.shininess" (ObjectMaterial.shininess material)].
Proof.
  intros Hsh Hne material.
  unfold SetShaderMaterial. unfold bind at 1, get.
  rewrite FindMaterial_spec.
  destruct (m_objectMaterials s) as [| m0 l] eqn:Hl; [congruence |].
  cbn [List.length Nat.ltb Nat.leb Nat.eqb Bool.eqb].
  fold material.
  unfold bind, shader_call, with_shader.
  cbn [m_pShaderManager m_textureIDs m_loadedTextures m_objectMaterials
       gl_texture_names uniform_of_call].
  rewrite Hsh, Hl. reflexivity.
Qed.

(** With a non-empty catalog and no shader manager the first of the five
    calls dereferences the null pointer. *)
Lemma SetShaderMaterial_null E tag s :
  m_pShaderManager s = None ->
  m_objectMaterials s <> [] ->
  SetShaderMaterial E tag s = NullDereference.
Proof.
  intros Hsh Hne.
  unfold SetShaderMaterial. unfold bind at 1, get.
  rewrite FindMaterial_spec.
  destruct (m_objectMaterials s) as [| m0 l] eqn:Hl; [congruence |].
  cbn [List.length Nat.ltb Nat.leb Nat.eqb Bool.eqb].
  unfold bind, shader_call. rewrite Hsh. reflexivity.
Qed.

Lemma SetShaderMaterial_empty E tag s :
  m_objectMaterials s = [] -> SetShaderMaterial E tag s = Returns tt s [].
Proof.
  intros H. unfold SetShaderMaterial. unfold bind, get. rewrite H. reflexivity.
Qed.

(** DefineObjectMaterials on a manager without materials gives the three
    presets, in the order plastic, wood, glass. *)
Lemma DefineObjectMaterials_seeds sh :
  DefineObjectMaterials (fresh_state sh) =
  Returns tt (with_objectMaterials Examples.seed_catalog (fresh_state sh)) [].
Proof. reflexivity. Qed.

(** C1 fails on the code: with the catalog of DefineObjectMaterials and
    the tag "metal", which no entry carries, FindMaterial leaves the
    caller's material as it was but returns true, and SetShaderMaterial
    sets all five material uniforms from that uninitialised material, so
    the values set before (here those of "plastic") do not persist. *)
Theorem SetShaderMaterial_miss_pushes E :
  find_material "metal" (m_objectMaterials Examples.seeded_state) = None /\
  FindMaterial "metal" (indeterminate_material E) Examples.seeded_state =
    (true, indeterminate_material E) /\
  match SetShaderMaterial E "plastic" Examples.seeded_state with
  | Returns _ s1 _ =>
      match SetShaderMaterial E "metal" s1 with
      | Returns _ s2 calls =>
          calls =
            [setVec3Value "material.ambientColor"
               (ObjectMaterial.ambientColor (indeterminate_material E));
             setFloatValue "material.ambientStrength"
               (ObjectMaterial.ambientStrength (indeterminate_material E));
             setVec3Value "material.diffuseColor"
               (ObjectMaterial.diffuseColor (indeterminate_material E));
             setVec3Value "material.specularColor"
               (ObjectMaterial.specularColor (indeterminate_material E));
             setFloatValue "material.shininess"
               (ObjectMaterial.shininess (indeterminate_material E))] /\
          option_map (uniform_value "material.shininess") (m_pShaderManager s1) =
            Some (Some (UFloat (ObjectMaterial.shininess plasticMaterial))) /\
          option_map (uniform_value "material.shininess") (m_pShaderManager s2) =
            Some (Some (UFloat (ObjectMaterial.shininess (indeterminate_material E))))
      | NullDereference => False
      end
  | NullDereference => False
  end.
Proof.
  split; [reflexivity |]. split.
  - rewrite FindMaterial_spec. reflexivity.
  - rewrite (SetShaderMaterial_nonempty E "plastic" Examples.seeded_state [])
      by (reflexivity || discriminate).
    erewrite SetShaderMaterial_nonempty; [| reflexivity | discriminate].
    repeat split; reflexivity.
Qed.

(* ================================================================== *)
(** ** The model matrix *)

Section ModelMatrix.

Local Open Scope R_scope.

Ltac mat4_eq :=
  unfold Textbook.product, Textbook.product_col, Textbook.dot4,
    Textbook.row0, Textbook.row1, Textbook.row2, Textbook.row3,
    Textbook.of_rows, glm.mul, glm.mul_col, glm.vadd, glm.vscale, glm.mat4_1;
  cbn [x3 y3 z3 x4 y4 z4 w4 col0 col1 col2 col3];
  f_equal; f_equal; ring.

(** glm's product by columns is the row-by-column product. *)
Lemma mul_is_product a b : glm.mul a b = Textbook.product a b.
Proof.
  destruct a as [[? ? ? ?] [? ? ? ?] [? ? ? ?] [? ? ? ?]].
  destruct b as [[? ? ? ?] [? ? ? ?] [? ? ? ?] [? ? ? ?]].
  mat4_eq.
Qed.

Lemma product_col_assoc a b v :
  Textbook.product_col (Textbook.product a b) v =
  Textbook.product_col a (Textbook.product_col b v).
Proof.
  destruct a as [[? ? ? ?] [? ? ? ?] [? ? ? ?] [? ? ? ?]].
  destruct b as [[? ? ? ?] [? ? ? ?] [? ? ? ?] [? ? ? ?]].
  destruct v.
  unfold Textbook.product, Textbook.product_col, Textbook.dot4,
    Textbook.row0, Textbook.row1, Textbook.row2, Textbook.row3.
  cbn [x4 y4 z4 w4 col0 col1 col2 col3].
  f_equal; ring.
Qed.

Lemma product_assoc a b c :
  Textbook.product (Textbook.product a b) c =
  Textbook.product a (Textbook.product b c).
Proof.
  unfold Textbook.product at 1 3 4.
  cbn [col0 col1 col2 col3].
  rewrite !product_col_assoc. reflexivity.
Qed.

Lemma scale_is_scaling v : glm.scale v = Textbook.scaling v.
Proof.
  destruct v. unfold glm.scale, glm.scale_m, Textbook.scaling. mat4_eq.
Qed.

Lemma translate_is_translation v : glm.translate v = Textbook.translation v.
Proof.
  destruct v. unfold glm.translate, glm.translate_m, Textbook.translation.
  mat4_eq.
Qed.

Lemma radians_is_conversion d : glm.radians d = Textbook.degrees_to_radians d.
Proof. unfold glm.radians, Textbook.degrees_to_radians. field. Qed.

(** The axes passed by SetTransformations have length one. *)
Lemma inversesqrt_unit : glm.inversesqrt 1 = 1.
Proof. unfold glm.inversesqrt. rewrite sqrt_1. field. Qed.

Ltac rotate_eq :=
  unfold glm.rotate, glm.rotate_m, glm.normalize, glm.dot;
  cbn [x3 y3 z3];
  match goal with
  | |- context [glm.inversesqrt ?e] =>
      replace e with 1 by ring; rewrite inversesqrt_unit
  end;
  mat4_eq.

Lemma rotate_X a : glm.rotate a (mkVec3 1 0 0) = Textbook.rotationX a.
Proof. unfold Textbook.rotationX. rotate_eq. Qed.

Lemma rotate_Y a : glm.rotate a (mkVec3 0 1 0) = Textbook.rotationY a.
Proof. unfold Textbook.rotationY. rotate_eq. Qed.

Lemma rotate_Z a : glm.rotate a (mkVec3 0 0 1) = Textbook.rotationZ a.
Proof. unfold Textbook.rotationZ. rotate_eq. Qed.

(** The matrix computed by SetTransformations is the composition the
    specification describes. *)
Lemma modelView_of_compose scaleXYZ x y z positionXYZ :
  modelView_of scaleXYZ x y z positionXYZ =
  Textbook.compose scaleXYZ x y z positionXYZ.
Proof.
  unfold modelView_of, Textbook.compose.
  rewrite !mul_is_product, scale_is_scaling, translate_is_translation,
    rotate_X, rotate_Y, rotate_Z, !radians_is_conversion, !product_assoc.
  reflexivity.
Qed.

Lemma SetTransformations_with_shader scaleXYZ x y z positionXYZ sh s :
  SetTransformations scaleXYZ x y z positionXYZ (with_shader (Some sh) s) =
  Returns tt
    (with_shader
       (Some (("model", UMat4 (modelView_of scaleXYZ x y z positionXYZ)) :: sh)) s)
    [setMat4Value "model" (modelView_of scaleXYZ x y z positionXYZ)].
Proof. reflexivity. Qed.

(** Without a shader manager nothing is submitted. *)
Lemma SetTransformations_without_shader scaleXYZ x y z positionXYZ s :
  m_pShaderManager s = None ->
  SetTransformations scaleXYZ x y z positionXYZ s = Returns tt s [].
Proof.
  intros H. unfold SetTransformations, if_shader. rewrite H. reflexivity.
Qed.

(** C5: with a shader manager attached, SetTransformations makes exactly
    one call, setMat4Value "model", whose matrix is
    translation x rotationX x rotationY x rotationZ x scale, the
    rotations taken at the angles converted from degrees to radians; the
    product may be read in either association. *)
Theorem SetTransformations_submits_product scaleXYZ x y z positionXYZ sh s :
  let T := Textbook.translation positionXYZ in
  let RX := Textbook.rotationX (Textbook.degrees_to_radians x) in
  let RY := Textbook.rotationY (Textbook.degrees_to_radians y) in
  let RZ := Textbook.rotationZ (Textbook.degrees_to_radians z) in
  let S := Textbook.scaling scaleXYZ in
  let model := Textbook.product T (Textbook.product RX
                 (Textbook.product RY (Textbook.product RZ S))) in
  SetTransformations scaleXYZ x y z positionXYZ (with_shader (Some sh) s) =
    Returns tt (with_shader (Some (("model", UMat4 model) :: sh)) s)
            [setMat4Value "model" model] /\
  model = Textbook.product (Textbook.product (Textbook.product
            (Textbook.product T RX) RY) RZ) S.
Proof.
  intros T RX RY RZ S model. split.
  - rewrite SetTransformations_with_shader, modelView_of_compose. reflexivity.
  - subst model. rewrite !product_assoc. reflexivity.
Qed.

Lemma product_identity_l m : Textbook.product Textbook.identity m = m.
Proof.
  destruct m as [[? ? ? ?] [? ? ? ?] [? ? ? ?] [? ? ? ?]].
  unfold Textbook.identity. mat4_eq.
Qed.

Lemma product_identity_r m : Textbook.product m Textbook.identity = m.
Proof.
  destruct m as [[? ? ? ?] [? ? ? ?] [? ? ? ?] [? ? ? ?]].
  unfold Textbook.identity. mat4_eq.
Qed.

Lemma zero_degrees : Textbook.degrees_to_radians 0 = 0.
Proof. unfold Textbook.degrees_to_radians. field. Qed.

Lemma rotationX_zero : Textbook.rotationX 0 = Textbook.identity.
Proof.
  unfold Textbook.rotationX, Textbook.identity.
  rewrite cos_0, sin_0, Ropp_0. reflexivity.
Qed.

Lemma rotationY_zero : Textbook.rotationY 0 = Textbook.identity.
Proof.
  unfold Textbook.rotationY, Textbook.identity.
  rewrite cos_0, sin_0, Ropp_0. reflexivity.
Qed.

Lemma rotationZ_zero : Textbook.rotationZ 0 = Textbook.identity.
Proof.
  unfold Textbook.rotationZ, Textbook.identity.
  rewrite cos_0, sin_0, Ropp_0. reflexivity.
Qed.

Lemma scaling_unit : Textbook.scaling (mkVec3 1 1 1) = Textbook.identity.
Proof. reflexivity. Qed.

Lemma translation_zero : Textbook.translation (mkVec3 0 0 0) = Textbook.identity.
Proof. reflexivity. Qed.

Lemma compose_translation_only t :
  Textbook.compose (mkVec3 1 1 1) 0 0 0 t = Textbook.translation t.
Proof.
  unfold Textbook.compose.
  rewrite zero_degrees, rotationX_zero, rotationY_zero, rotationZ_zero,
    scaling_unit, !product_identity_r.
  reflexivity.
Qed.

(** C6: unit scale, zero rotation and zero translation submit the 4 x 4
    identity as the model matrix; unit scale, zero rotation and a
    translation (tx, ty, tz) submit the matrix whose upper-left 3 x 3
    block is the identity (no shear, no scaling), whose last column is
    (tx, ty, tz, 1) and whose last row is (0, 0, 0, 1). *)
Theorem SetTransformations_identity_and_translation sh s :
  SetTransformations (mkVec3 1 1 1) 0 0 0 (mkVec3 0 0 0) (with_shader (Some sh) s) =
    Returns tt (with_shader (Some (("model", UMat4 Textbook.identity) :: sh)) s)
            [setMat4Value "model" Textbook.identity] /\
  Textbook.identity =
    mkMat4 (mkVec4 1 0 0 0) (mkVec4 0 1 0 0) (mkVec4 0 0 1 0) (mkVec4 0 0 0 1) /\
  forall tx ty tz,
    SetTransformations (mkVec3 1 1 1) 0 0 0 (mkVec3 tx ty tz)
                       (with_shader (Some sh) s) =
      Returns tt
        (with_shader (Some (("model", UMat4 (Textbook.translation (mkVec3 tx ty tz)))
                            :: sh)) s)
        [setMat4Value "model" (Textbook.translation (mkVec3 tx ty tz))] /\
    Textbook.translation (mkVec3 tx ty tz) =
      Textbook.of_rows (mkVec4 1 0 0 tx) (mkVec4 0 1 0 ty) (mkVec4 0 0 1 tz)
                       (mkVec4 0 0 0 1).
Proof.
  split; [| split; [reflexivity |]].
  - rewrite SetTransformations_with_shader, modelView_of_compose,
      compose_translation_only, translation_zero. reflexivity.
  - intros tx ty tz. split; [| reflexivity].
    rewrite SetTransformations_with_shader, modelView_of_compose,
      compose_translation_only. reflexivity.
Qed.

End ModelMatrix.

(* ================================================================== *)
(** ** Rendering a frame twice *)

Lemma same_scene_refl s : same_scene s s.
Proof. unfold same_scene. auto. Qed.

Lemma same_scene_sym s1 s2 : same_scene s1 s2 -> same_scene s2 s1.
Proof. unfold same_scene. intros (H1 & H2 & H3 & H4). auto. Qed.

Lemma same_scene_trans s1 s2 s3 :
  same_scene s1 s2 -> same_scene s2 s3 -> same_scene s1 s3.
Proof.
  unfold same_scene. intros (H1 & H2 & H3 & H4) (K1 & K2 & K3 & K4).
  repeat split; congruence.
Qed.

Lemma same_scene_lookup tag s1 s2 :
  same_scene s1 s2 -> FindTextureSlot tag s1 = FindTextureSlot tag s2.
Proof.
  intros (Hc & Hn & _). symmetry.
  apply (lookups_depend_on_registry tag s1 s2); congruence.
Qed.

Section Agreement.

Variable P : list OBJECT_MATERIAL -> Prop.

Lemma agree_on_bind {A B} (m1 m2 : M A) (k1 k2 : A -> M B) :
  agree_on P m1 m2 ->
  (forall a, agree_on P (k1 a) (k2 a)) ->
  agree_on P (bind m1 k1) (bind m2 k2).
Proof.
  intros Hm Hk s1 s2 Hs HP. unfold bind.
  specialize (Hm s1 s2 Hs HP).
  destruct (m1 s1) as [a1 t1 c1 |], (m2 s2) as [a2 t2 c2 |]; try tauto.
  destruct Hm as (-> & -> & Ht1 & Ht2).
  assert (Ht : same_scene t1 t2).
  { eapply same_scene_trans; [apply same_scene_sym; exact Ht1 |].
    eapply same_scene_trans; eauto. }
  assert (HP' : P (m_objectMaterials t1)).
  { destruct Ht1 as (_ & _ & <- & _). exact HP. }
  specialize (Hk a2 t1 t2 Ht HP').
  destruct (k1 a2 t1) as [b1 u1 d1 |], (k2 a2 t2) as [b2 u2 d2 |]; try tauto.
  - destruct Hk as (-> & -> & Hu1 & Hu2).
    split; [reflexivity |]. split; [reflexivity |].
    split; [exact (same_scene_trans _ _ _ Ht1 Hu1)
           | exact (same_scene_trans _ _ _ Ht2 Hu2)].
  - destruct Hk as (Hsh & Hne).
    destruct Ht1 as (_ & _ & Hm1 & Hs1). split; congruence.
Qed.

Lemma agree_on_emit c : agree_on P (emit c) (emit c).
Proof.
  intros s1 s2 Hs _. unfold emit.
  repeat split; auto using same_scene_refl.
Qed.

Lemma agree_guarded_bind {A B} (m1 m2 : M A) (k1 k2 : A -> M B) :
  agree_guarded m1 m2 ->
  (forall a, agree_guarded (k1 a) (k2 a)) ->
  agree_guarded (bind m1 k1) (bind m2 k2).
Proof.
  intros Hm Hk s1 s2 Hs Hsh. unfold bind.
  specialize (Hm s1 s2 Hs Hsh).
  destruct (m1 s1) as [a1 t1 c1 |], (m2 s2) as [a2 t2 c2 |]; try tauto.
  destruct Hm as (-> & -> & Ht1 & Ht2).
  assert (Ht : same_scene t1 t2).
  { eapply same_scene_trans; [apply same_scene_sym; exact Ht1 |].
    eapply same_scene_trans; eauto. }
  assert (Hsh' : has_shader t1 = true).
  { destruct Ht1 as (_ & _ & _ & <-). exact Hsh. }
  specialize (Hk a2 t1 t2 Ht Hsh').
  destruct (k1 a2 t1) as [b1 u1 d1 |], (k2 a2 t2) as [b2 u2 d2 |]; try tauto.
  destruct Hk as (-> & -> & Hu1 & Hu2).
  split; [reflexivity |]. split; [reflexivity |].
  split; [exact (same_scene_trans _ _ _ Ht1 Hu1)
         | exact (same_scene_trans _ _ _ Ht2 Hu2)].
Qed.

Lemma agree_guarded_shader_call c : agree_guarded (shader_call c) (shader_call c).
Proof.
  intros s1 s2 Hs Hsh. unfold shader_call.
  assert (Hsh2 : has_shader s2 = true) by (destruct Hs as (_ & _ & _ & <-); auto).
  unfold has_shader in Hsh, Hsh2.
  destruct (m_pShaderManager s1) eqn:E1; [| discriminate].
  destruct (m_pShaderManager s2) eqn:E2; [| discriminate].
  repeat split; auto; unfold same_scene, has_shader, with_shader; cbn;
    rewrite ?E1, ?E2; auto.
Qed.

(** Reading a value that only depends on the scene. *)
Lemma agree_guarded_read {A B} (f : State -> A) (k : A -> M B) :
  (forall s1 s2, same_scene s1 s2 -> f s1 = f s2) ->
  (forall a, agree_guarded (k a) (k a)) ->
  agree_guarded (s <- get ;; k (f s)) (s <- get ;; k (f s)).
Proof.
  intros Hf Hk s1 s2 Hs Hsh. unfold bind, get.
  rewrite (Hf s1 s2 Hs).
  specialize (Hk (f s2) s1 s2 Hs Hsh).
  destruct (k (f s2) s1), (k (f s2) s2); auto.
Qed.

Lemma agree_on_if_shader (m1 m2 : M unit) :
  agree_guarded m1 m2 -> agree_on P (if_shader m1) (if_shader m2).
Proof.
  intros Hm s1 s2 Hs _. unfold if_shader.
  pose proof Hs as (_ & _ & _ & Hsh). unfold has_shader in Hsh.
  specialize (Hm s1 s2 Hs). unfold has_shader in Hm.
  destruct (m_pShaderManager s1), (m_pShaderManager s2); try discriminate.
  - specialize (Hm eq_refl).
    destruct (m1 s1) as [[] ? ? |], (m2 s2) as [[] ? ? |]; tauto.
  - repeat split; auto using same_scene_refl.
Qed.

Lemma agree_on_SetTransformations v x y z p :
  agree_on P (SetTransformations v x y z p) (SetTransformations v x y z p).
Proof. apply agree_on_if_shader, agree_guarded_shader_call. Qed.

Lemma agree_on_SetShaderColor r g b a :
  agree_on P (SetShaderColor r g b a) (SetShaderColor r g b a).
Proof.
  apply agree_on_if_shader, agree_guarded_bind; intros;
    apply agree_guarded_shader_call.
Qed.

Lemma agree_on_SetShaderTexture tag :
  agree_on P (SetShaderTexture tag) (SetShaderTexture tag).
Proof.
  apply agree_on_if_shader, agree_guarded_bind;
    [apply agree_guarded_shader_call | intros _].
  apply (agree_guarded_read (FindTextureSlot tag)
           (fun v => shader_call (setSampler2DValue g_TextureValueName v))).
  - intros s1 s2 Hs. apply same_scene_lookup. exact Hs.
  - intros v. apply agree_guarded_shader_call.
Qed.

(** The fields SetShaderMaterial passes on do not depend on the local's
    initial contents once an entry was copied into it. *)
Lemma agree_on_SetShaderMaterial E1 E2 tag :
  material_determined E1 E2 P tag ->
  agree_on P (SetShaderMaterial E1 tag) (SetShaderMaterial E2 tag).
Proof.
  intros Hdet s1 s2 Hs HP.
  pose proof Hs as (_ & _ & Hcat & Hsh).
  destruct (m_objectMaterials s1) as [| m0 l] eqn:Hl.
  - rewrite !SetShaderMaterial_empty by congruence.
    repeat split; auto using same_scene_refl.
  - unfold has_shader in Hsh.
    destruct (m_pShaderManager s1) as [sh1 |] eqn:Hs1,
             (m_pShaderManager s2) as [sh2 |] eqn:Hs2; try discriminate.
    + rewrite (SetShaderMaterial_nonempty E1 tag s1 sh1 Hs1) by congruence.
      rewrite (SetShaderMaterial_nonempty E2 tag s2 sh2 Hs2) by congruence.
      rewrite <- Hcat, Hl.
      assert (Hsame : forall s sh l', same_scene s (with_shader (Some l') s) \/
                                      m_pShaderManager s <> Some sh).
      { intros s sh l'. destruct (m_pShaderManager s) eqn:Hm.
        - left. unfold same_scene, has_shader, with_shader. cbn.
          rewrite Hm. auto.
        - right. discriminate. }
      split; [reflexivity |]. split.
      * destruct Hdet as [Heq | Hres].
        -- rewrite Heq. reflexivity.
        -- specialize (Hres _ HP).
           destruct Hres as [Hnil | Hfound]; [discriminate |].
           destruct (find_material tag (m0 :: l)); [reflexivity | congruence].
      * split.
        -- destruct (Hsame s1 sh1 (
             [("material.shininess", UFloat (ObjectMaterial.shininess
                 match find_material tag (m0 :: l) with
                 | Some e => copy_material e (indeterminate_material E1)
                 | None => indeterminate_material E1
                 end));
              ("material.specularColor", UVec3 (ObjectMaterial.specularColor
                 match find_material tag (m0 :: l) with
                 | Some e => copy_material e (indeterminate_material E1)
                 | None => indeterminate_material E1
                 end));
              ("material.diffuseColor", UVec3 (ObjectMaterial.diffuseColor
                 match find_material tag (m0 :: l) with
                 | Some e => copy_material e (indeterminate_material E1)
                 | None => indeterminate_material E1
                 end));
              ("material.ambientStrength", UFloat (ObjectMaterial.ambientStrength
                 match find_material tag (m0 :: l) with
                 | Some e => copy_material e (indeterminate_material E1)
                 | None => indeterminate_material E1
                 end));
              ("material.ambientColor", UVec3 (ObjectMaterial.ambientColor
                 match find_material tag (m0 :: l) with
                 | Some e => copy_material e (indeterminate_material E1)
                 | None => indeterminate_material E1
                 end))] ++ sh1)%list); [assumption | congruence].
        -- unfold same_scene, has_shader, with_shader. cbn. rewrite Hs2. auto.
    + rewrite (SetShaderMaterial_null E1 tag s1 Hs1) by congruence.
      rewrite (SetShaderMaterial_null E2 tag s2 Hs2) by congruence.
      unfold has_shader. rewrite Hs1. split; [reflexivity | discriminate].
Qed.

End Agreement.

Ltac agree_scene :=
  repeat first
    [ apply agree_on_SetTransformations
    | apply agree_on_SetShaderColor
    | apply agree_on_SetShaderTexture
    | apply agree_on_emit
    | apply agree_on_SetShaderMaterial; assumption
    | apply agree_on_bind; [| intros _] ].

Section SceneFrames.

Variables E1 E2 : Environment.
Variable P : list OBJECT_MATERIAL -> Prop.

Hypothesis plastic_determined : material_determined E1 E2 P "plastic".
Hypothesis wood_determined : material_determined E1 E2 P "wood".
Hypothesis glass_determined : material_determined E1 E2 P "glass".

Lemma agree_on_createCoffeeMug :
  agree_on P (createCoffeeMug E1) (createCoffeeMug E2).
Proof. unfold createCoffeeMug. agree_scene. Qed.

Lemma agree_on_createDesktop :
  agree_on P (createDesktop E1) (createDesktop E2).
Proof. unfold createDesktop. agree_scene. Qed.

Lemma agree_on_createTable :
  agree_on P (createTable E1) (createTable E2).
Proof. unfold createTable. agree_scene. Qed.

Lemma agree_on_createPaperTowel :
  agree_on P (createPaperTowel E1) (createPaperTowel E2).
Proof. unfold createPaperTowel. agree_scene. Qed.

Lemma agree_on_createFlowerPot :
  agree_on P (createFlowerPot E1) (createFlowerPot E2).
Proof. unfold createFlowerPot. agree_scene. Qed.

Lemma agree_on_createWall :
  agree_on P (createWall E1) (createWall E2).
Proof. unfold createWall. agree_scene. Qed.

Lemma agree_on_RenderScene :
  agree_on P (RenderScene E1) (RenderScene E2).
Proof.
  unfold RenderScene.
  apply agree_on_bind; [apply agree_on_createCoffeeMug | intros _].
  apply agree_on_bind; [apply agree_on_createDesktop | intros _].
  apply agree_on_bind; [apply agree_on_createTable | intros _].
  apply agree_on_bind; [apply agree_on_createPaperTowel | intros _].
  apply agree_on_bind; [apply agree_on_createFlowerPot | intros _].
  apply agree_on_createWall.
Qed.

End SceneFrames.

(** Two executions from states that describe the same scene, with the
    same contents for the uninitialised local. *)
Lemma RenderScene_agrees E s1 s2 :
  same_scene s1 s2 ->
  match RenderScene E s1, RenderScene E s2 with
  | Returns _ t1 calls1, Returns _ t2 calls2 =>
      calls1 = calls2 /\ same_scene s1 t1 /\ same_scene s2 t2
  | NullDereference, NullDereference =>
      has_shader s1 = false /\ m_objectMaterials s1 <> []
  | _, _ => False
  end.
Proof.
  intros Hs.
  pose proof (agree_on_RenderScene E E (fun _ => True)
                (or_introl eq_refl) (or_introl eq_refl) (or_introl eq_refl)
                s1 s2 Hs I) as H.
  destruct (RenderScene E s1), (RenderScene E s2); tauto.
Qed.

(** C9: two executions of RenderScene from states with the same registry
    and the same catalog (whatever uniforms the shader manager holds) make
    the same calls in the same order - every setMat4Value, every shader
    state call and every draw - and leave registry and catalog as they
    were; the only other outcome, for both executions alike, is the null
    dereference of SetShaderMaterial when no shader manager is attached and
    the catalog is not empty. *)
Theorem RenderScene_deterministic E s1 s2 :
  same_scene s1 s2 ->
  match RenderScene E s1, RenderScene E s2 with
  | Returns _ t1 calls1, Returns _ t2 calls2 =>
      calls1 = calls2 /\ same_scene s1 t1 /\ same_scene s2 t2
  | NullDereference, NullDereference =>
      has_shader s1 = false /\ m_objectMaterials s1 <> []
  | _, _ => False
  end.
Proof. exact (RenderScene_agrees E s1 s2). Qed.

(** Rendering a second frame from the state the first one left repeats the
    calls of the first. *)
Corollary RenderScene_next_frame E s :
  match RenderScene E s with
  | Returns _ s1 calls1 =>
      match RenderScene E s1 with
      | Returns _ s2 calls2 => calls2 = calls1 /\ same_scene s s2
      | NullDereference => False
      end
  | NullDereference => has_shader s = false /\ m_objectMaterials s <> []
  end.
Proof.
  pose proof (RenderScene_agrees E s s (same_scene_refl s)) as H0.
  destruct (RenderScene E s) as [[] s1 calls1 |] eqn:H1; [| exact H0].
  destruct H0 as (_ & Hs1 & _).
  pose proof (RenderScene_agrees E s s1 Hs1) as H2.
  rewrite H1 in H2.
  destruct (RenderScene E s1) as [[] s2 calls2 |]; [| exact H2].
  destruct H2 as (Hc & _ & Hs2). split; [congruence |].
  eapply same_scene_trans; eauto.
Qed.

(** With the catalog empty or resolving "plastic", "wood" and "glass", as
    after DefineObjectMaterials, the calls do not depend on what the
    uninitialised local of SetShaderMaterial contains. *)
Lemma RenderScene_indeterminate_irrelevant E1 E2 s1 s2 :
  same_scene s1 s2 ->
  m_objectMaterials s1 = [] \/ resolves_scene_materials (m_objectMaterials s1) ->
  match RenderScene E1 s1, RenderScene E2 s2 with
  | Returns _ t1 calls1, Returns _ t2 calls2 =>
      calls1 = calls2 /\ same_scene s1 t1 /\ same_scene s2 t2
  | NullDereference, NullDereference =>
      has_shader s1 = false /\ m_objectMaterials s1 <> []
  | _, _ => False
  end.
Proof.
  intros Hs Hcat.
  pose proof (agree_on_RenderScene E1 E2
                (fun l => l = [] \/ resolves_scene_materials l)) as H.
  assert (Hdet : forall tag,
            (forall l, resolves_scene_materials l -> find_material tag l <> None) ->
            material_determined E1 E2
              (fun l => l = [] \/ resolves_scene_materials l) tag).
  { intros tag Htag. right. intros l [Hl | Hl]; [left | right]; auto. }
  specialize (H (Hdet "plastic" (fun l Hl => proj1 Hl))
                (Hdet "wood" (fun l Hl => proj1 (proj2 Hl)))
                (Hdet "glass" (fun l Hl => proj2 (proj2 Hl)))
                s1 s2 Hs Hcat).
  destruct (RenderScene E1 s1), (RenderScene E2 s2); tauto.
Qed.

Lemma RenderScene_deterministic_witness :
  match RenderScene Examples.env_rgb Examples.seeded_state,
        RenderScene Examples.env_rgb Examples.later_state with
  | Returns _ t1 calls1, Returns _ t2 calls2 =>
      calls1 = calls2 /\
      same_scene Examples.seeded_state t1 /\ same_scene Examples.later_state t2
  | NullDereference, NullDereference =>
      has_shader Examples.seeded_state = false /\
      m_objectMaterials Examples.seeded_state <> []
  | _, _ => False
  end.
Proof.
  apply (RenderScene_deterministic Examples.env_rgb Examples.seeded_state
           Examples.later_state).
  unfold same_scene. repeat split; reflexivity.
Defined.

(** With a shader manager attached RenderScene returns. *)
Lemma RenderScene_returns E s :
  has_shader s = true ->
  exists t calls, RenderScene E s = Returns tt t calls /\ same_scene s t.
Proof.
  intros Hsh.
  pose proof (RenderScene_agrees E s s (same_scene_refl s)) as H.
  destruct (RenderScene E s) as [[] t calls |].
  - exists t, calls. tauto.
  - destruct H as [H _]. congruence.
Qed.

(* ================================================================== *)
(** ** The prepared scene *)

(** PrepareScene with five decodable RGB files: the five tags resolve to
    the slots 0 to 4 in the order of LoadSceneTextures, the units bound are
    GL_TEXTURE0 to GL_TEXTURE0 + 4, and the catalog holds the three presets. *)
Example PrepareScene_example :
  match PrepareScene Examples.env_rgb (fresh_state (Some [])) with
  | Returns _ s calls =>
      m_loadedTextures s = 5 /\
      map (fun t => FindTextureSlot t s)
          ["monitor"; "table"; "paperTowel"; "vase"; "wall"; "floor"] =
        [0; 1; 2; 3; 4; -1] /\
      map (fun t => FindTextureID t s)
          ["monitor"; "table"; "paperTowel"; "vase"; "wall"; "floor"] =
        [1; 2; 3; 4; 5; -1] /\
      bound_units calls = map (fun i => GL_TEXTURE0 + i) [0; 1; 2; 3; 4] /\
      map ObjectMaterial.tag (m_objectMaterials s) = ["plastic"; "wood"; "glass"]
  | NullDereference => False
  end.
Proof.
  vm_compute. repeat split; reflexivity.
Qed.

(** The same preparation without a shader manager stops in
    SetupSceneLights. *)
Example PrepareScene_without_shader :
  PrepareScene Examples.env_rgb (fresh_state None) = NullDereference.
Proof. reflexivity. Qed.

(* ================================================================== *)
(** ** Registration and lookup together *)

(** The scans read tags only. *)
Lemma first_match_tags_ext cells cells' tag count :
  forall i,
    (forall k, i <= k < i + Z.of_nat count ->
               TextureInfo.tag (cells' k) = TextureInfo.tag (cells k)) ->
    first_match cells' tag count i = first_match cells tag count i.
Proof.
  induction count as [| c IH]; intros i H; simpl; auto.
  rewrite (H i) by lia.
  destruct (String.eqb _ _); auto.
  apply IH. intros k Hk. apply H. lia.
Qed.

(** A match found among [count] cells is found among more cells too. *)
Lemma first_match_more cells tag count extra :
  forall i j,
    first_match cells tag count i = Some j ->
    first_match cells tag (count + extra) i = Some j.
Proof.
  induction count as [| c IH]; intros i j H; simpl in *.
  - discriminate.
  - destruct (String.eqb _ _); auto.
Qed.

Lemma store_cell_same cells i e : store_cell cells i e i = e.
Proof. unfold store_cell. rewrite Z.eqb_refl. reflexivity. Qed.

Lemma store_cell_other cells i e k : k <> i -> store_cell cells i e k = cells k.
Proof.
  intros H. unfold store_cell.
  destruct (Z.eqb_spec k i); [contradiction | reflexivity].
Qed.

(** Every call of CreateGLTexture returns, and its outcome is one of two:
    the registered state of [CreateGLTexture_accepted] or a state that
    differs from the old one in the names of the context only. *)
Lemma CreateGLTexture_outcome E filename tag s :
  exists b s' calls,
    CreateGLTexture E filename tag s = Returns b s' calls /\
    b = accepted E filename /\
    ((b = true /\
      m_loadedTextures s' = m_loadedTextures s + 1 /\
      m_textureIDs s' =
        store_cell (m_textureIDs s) (m_loadedTextures s)
          (TextureInfo.mk (glGenTextures_name E (gl_texture_names s)) tag)) \/
     (b = false /\
      m_loadedTextures s' = m_loadedTextures s /\
      m_textureIDs s' = m_textureIDs s)) /\
    m_pShaderManager s' = m_pShaderManager s /\
    m_objectMaterials s' = m_objectMaterials s.
Proof.
  destruct (accepted E filename) eqn:Hacc.
  - destruct (CreateGLTexture_accepted E filename tag s Hacc) as [calls H].
    eexists _, _, _. split; [exact H |].
    split; [reflexivity |]. split; [left; auto | auto].
  - destruct (CreateGLTexture_rejected E filename tag s Hacc) as (names & calls & H).
    eexists _, _, _. split; [exact H |].
    split; [reflexivity |]. split; [right; auto | auto].
Qed.

(** X1: Register, then look up: a file that is registered under a tag no cell
    carried yet is found by FindTextureSlot at the slot that was the value
    of m_loadedTextures, and FindTextureID returns the texture name the
    driver generated for it (as an int). *)
Theorem CreateGLTexture_then_lookup E filename tag s :
  accepted E filename = true ->
  0 <= m_loadedTextures s ->
  unresolved tag s ->
  exists s' calls,
    CreateGLTexture E filename tag s = Returns true s' calls /\
    m_loadedTextures s' = m_loadedTextures s + 1 /\
    FindTextureSlot tag s' = m_loadedTextures s /\
    FindTextureID tag s' =
      Int.int_of_GLuint (glGenTextures_name E (gl_texture_names s)).
Proof.
  intros Hacc Hn Hun.
  destruct (CreateGLTexture_accepted E filename tag s Hacc) as [calls H].
  eexists _, calls. split; [exact H |]. split; [reflexivity |].
  rewrite FindTextureSlot_first_match, FindTextureID_first_match.
  cbn [m_loadedTextures m_textureIDs].
  rewrite (first_match_intro _ tag _ 0 (m_loadedTextures s)).
  - rewrite store_cell_same. auto.
  - lia.
  - rewrite store_cell_same. reflexivity.
  - intros j Hj. rewrite store_cell_other by lia. apply Hun. lia.
Qed.

Lemma CreateGLTexture_then_lookup_witness :
  exists s' calls,
    CreateGLTexture Examples.env_rgb "textures/table.jpg" "table"
                    MoreExamples.one_texture = Returns true s' calls /\
    m_loadedTextures s' = m_loadedTextures MoreExamples.one_texture + 1 /\
    FindTextureSlot "table" s' = m_loadedTextures MoreExamples.one_texture /\
    FindTextureID "table" s' =
      Int.int_of_GLuint
        (glGenTextures_name Examples.env_rgb
           (gl_texture_names MoreExamples.one_texture)).
Proof.
  apply (CreateGLTexture_then_lookup Examples.env_rgb "textures/table.jpg"
           "table" MoreExamples.one_texture).
  - reflexivity.
  - simpl. lia.
  - intros k Hk. simpl in Hk. assert (k = 0) as -> by lia.
    vm_compute. discriminate.
Defined.

(** X2: Registration never changes what an earlier lookup answered: after any
    call of CreateGLTexture, accepted or not, FindTextureSlot and
    FindTextureID return what they returned before for every tag other than
    the one passed and for every tag that already resolved - so a second
    texture registered under a tag in use is never visible. *)
Theorem CreateGLTexture_keeps_lookups E filename tag s :
  exists b s' calls,
    CreateGLTexture E filename tag s = Returns b s' calls /\
    forall t,
      t <> tag \/ FindTextureSlot t s <> -1 ->
      FindTextureSlot t s' = FindTextureSlot t s /\
      FindTextureID t s' = FindTextureID t s.
Proof.
  destruct (CreateGLTexture_outcome E filename tag s)
    as (b & s' & calls & Hrun & _ & Hcase & _).
  exists b, s', calls. split; [exact Hrun |].
  intros t Ht.
  destruct Hcase as [(_ & Hn & Hc) | (_ & Hn & Hc)];
    [| apply lookups_depend_on_registry; assumption].
  rewrite !FindTextureSlot_first_match, !FindTextureID_first_match, Hn, Hc.
  rewrite FindTextureSlot_first_match in Ht.
  destruct (first_match (m_textureIDs s) t (Z.to_nat (m_loadedTextures s)) 0)
    as [j |] eqn:Hm.
  - pose proof (first_match_Some _ _ _ _ _ Hm) as (Hj & _ & _).
    replace (Z.to_nat (m_loadedTextures s + 1))
      with (Z.to_nat (m_loadedTextures s) + 1)%nat by lia.
    assert (Hm' : first_match
              (store_cell (m_textureIDs s) (m_loadedTextures s)
                 (TextureInfo.mk (glGenTextures_name E (gl_texture_names s)) tag))
              t (Z.to_nat (m_loadedTextures s)) 0 = Some j).
    { rewrite <- Hm. apply first_match_ext.
      intros k Hk. apply store_cell_other. lia. }
    rewrite (first_match_more _ _ _ 1%nat _ _ Hm').
    rewrite store_cell_other by lia. auto.
  - destruct Ht as [Hne | Hres]; [| congruence].
    assert (Hnone : first_match
              (store_cell (m_textureIDs s) (m_loadedTextures s)
                 (TextureInfo.mk (glGenTextures_name E (gl_texture_names s)) tag))
              t (Z.to_nat (m_loadedTextures s + 1)) 0 = None).
    { apply first_match_None. intros k Hk.
      destruct (Z.eq_dec k (m_loadedTextures s)) as [-> | Hk'].
      - rewrite store_cell_same. cbn. congruence.
      - rewrite store_cell_other by exact Hk'.
        rewrite first_match_None in Hm. apply Hm. lia. }
    rewrite Hnone. auto.
Qed.

(** X3: The two ways CreateGLTexture fails.  When the file does not decode the
    state is left exactly as it was and no OpenGL call is made.  When it
    decodes to an unsupported channel count, a texture name has already
    been generated and bound: it stays in use in the context and stays
    bound, the image is not freed, and nothing is registered. *)
Theorem CreateGLTexture_failure_paths E filename tag s :
  accepted E filename = false ->
  match stbi_load E filename with
  | None =>
      CreateGLTexture E filename tag s =
        Returns false s [stbi_set_flip_vertically_on_load true]
  | Some img =>
      let name := glGenTextures_name E (gl_texture_names s) in
      CreateGLTexture E filename tag s =
        Returns false
          (with_gl_texture_names (gl_texture_names s ++ [name]) s)
          [stbi_set_flip_vertically_on_load true;
           glGenTextures 1 name;
           glBindTexture GL_TEXTURE_2D name;
           glTexParameteri GL_TEXTURE_2D GL_TEXTURE_WRAP_S GL_REPEAT;
           glTexParameteri GL_TEXTURE_2D GL_TEXTURE_WRAP_T GL_REPEAT;
           glTexParameteri GL_TEXTURE_2D GL_TEXTURE_MIN_FILTER GL_LINEAR;
           glTexParameteri GL_TEXTURE_2D GL_TEXTURE_MAG_FILTER GL_LINEAR]
  end.
Proof.
  unfold accepted, CreateGLTexture, upload_pixels, gl_GenTextures1.
  destruct (stbi_load E filename) as [img |].
  - intros H. apply orb_false_elim in H. destruct H as [H3 H4].
    rewrite H3, H4. reflexivity.
  - intros _. reflexivity.
Qed.

Lemma CreateGLTexture_failure_paths_witness :
  let name := glGenTextures_name Examples.env_two_channels
                (gl_texture_names MoreExamples.one_texture) in
  CreateGLTexture Examples.env_two_channels "textures/gray.png" "gray"
                  MoreExamples.one_texture =
    Returns false
      (with_gl_texture_names
         (gl_texture_names MoreExamples.one_texture ++ [name])
         MoreExamples.one_texture)
      [stbi_set_flip_vertically_on_load true;
       glGenTextures 1 name;
       glBindTexture GL_TEXTURE_2D name;
       glTexParameteri GL_TEXTURE_2D GL_TEXTURE_WRAP_S GL_REPEAT;
       glTexParameteri GL_TEXTURE_2D GL_TEXTURE_WRAP_T GL_REPEAT;
       glTexParameteri GL_TEXTURE_2D GL_TEXTURE_MIN_FILTER GL_LINEAR;
       glTexParameteri GL_TEXTURE_2D GL_TEXTURE_MAG_FILTER GL_LINEAR].
Proof.
  apply (CreateGLTexture_failure_paths Examples.env_two_channels
           "textures/gray.png" "gray" MoreExamples.one_texture).
  reflexivity.
Defined.

(* ================================================================== *)
(** ** Registration and binding together *)

Lemma bind_calls_ext cells cells' count :
  forall i,
    (forall k, i <= k < i + Z.of_nat count -> cells' k = cells k) ->
    bind_calls cells' count i = bind_calls cells count i.
Proof.
  induction count as [| c IH]; intros i H; cbn [bind_calls]; auto.
  rewrite (H i) by lia. rewrite IH; auto.
  intros k Hk. apply H. lia.
Qed.

Lemma bind_calls_snoc cells count :
  forall i,
    bind_calls cells (count + 1) i =
    (bind_calls cells count i ++
     [glActiveTexture (GL_TEXTURE0 + (i + Z.of_nat count));
      glBindTexture GL_TEXTURE_2D (TextureInfo.ID (cells (i + Z.of_nat count)))])%list.
Proof.
  induction count as [| c IH]; intros i.
  - cbn. rewrite Z.add_0_r. reflexivity.
  - cbn [Nat.add bind_calls app]. rewrite IH.
    replace (i + 1 + Z.of_nat c) with (i + Z.of_nat (S c)) by lia.
    reflexivity.
Qed.

(** X4: Register, then bind: after a successful CreateGLTexture, BindGLTextures
    repeats the bindings of the textures registered before and then makes
    the unit of the new slot active and binds the new texture name to it. *)
Theorem CreateGLTexture_then_BindGLTextures E filename tag s :
  accepted E filename = true ->
  0 <= m_loadedTextures s ->
  exists s' calls,
    CreateGLTexture E filename tag s = Returns true s' calls /\
    BindGLTextures s' =
      Returns tt s'
        (bind_calls (m_textureIDs s) (Z.to_nat (m_loadedTextures s)) 0 ++
         [glActiveTexture (GL_TEXTURE0 + m_loadedTextures s);
          glBindTexture GL_TEXTURE_2D
            (glGenTextures_name E (gl_texture_names s))])%list.
Proof.
  intros Hacc Hn.
  destruct (CreateGLTexture_accepted E filename tag s Hacc) as [calls H].
  eexists _, calls. split; [exact H |].
  unfold BindGLTextures. unfold bind at 1, get.
  rewrite for_loop_bind_calls.
  cbn [m_loadedTextures m_textureIDs app].
  replace (Z.to_nat (m_loadedTextures s + 1))
    with (Z.to_nat (m_loadedTextures s) + 1)%nat by lia.
  rewrite bind_calls_snoc.
  rewrite Z.add_0_l, Z2Nat.id by lia.
  rewrite store_cell_same. cbn [TextureInfo.ID].
  rewrite (bind_calls_ext (m_textureIDs s)); [reflexivity |].
  intros k Hk. apply store_cell_other. lia.
Qed.

Lemma CreateGLTexture_then_BindGLTextures_witness :
  exists s' calls,
    CreateGLTexture Examples.env_rgb "textures/table.jpg" "table"
                    MoreExamples.one_texture = Returns true s' calls /\
    BindGLTextures s' =
      Returns tt s'
        (bind_calls (m_textureIDs MoreExamples.one_texture)
           (Z.to_nat (m_loadedTextures MoreExamples.one_texture)) 0 ++
         [glActiveTexture (GL_TEXTURE0 + m_loadedTextures MoreExamples.one_texture);
          glBindTexture GL_TEXTURE_2D
            (glGenTextures_name Examples.env_rgb
               (gl_texture_names MoreExamples.one_texture))])%list.
Proof.
  apply (CreateGLTexture_then_BindGLTextures Examples.env_rgb
           "textures/table.jpg" "table" MoreExamples.one_texture).
  - reflexivity.
  - simpl. lia.
Defined.

(* ================================================================== *)
(** ** What DestroyGLTextures leaves behind *)

Lemma DestroyGLTextures_loop_cells E count :
  forall i s,
  exists s' extra,
    for_loop count i (fun i =>
      name <- gl_GenTextures1 E ;;
      modify (fun s =>
        with_textureIDs
          (store_cell (m_textureIDs s) i
             (TextureInfo.mk name (TextureInfo.tag (m_textureIDs s i)))) s)) s =
    Returns tt s' (map (glGenTextures 1) extra) /\
    List.length extra = count /\
    m_loadedTextures s' = m_loadedTextures s /\
    m_pShaderManager s' = m_pShaderManager s /\
    m_objectMaterials s' = m_objectMaterials s /\
    (forall k, TextureInfo.tag (m_textureIDs s' k) =
               TextureInfo.tag (m_textureIDs s k)) /\
    (forall k, k < i \/ i + Z.of_nat count <= k ->
               m_textureIDs s' k = m_textureIDs s k) /\
    (forall j, (j < count)%nat ->
               TextureInfo.ID (m_textureIDs s' (i + Z.of_nat j)) = nth j extra 0).
Proof.
  induction count as [| c IH]; intros i s.
  - exists s, []. cbn. repeat split; auto. intros j Hj. lia.
  - cbn [for_loop]. unfold bind at 1.
    rewrite DestroyGLTextures_step.
    match goal with
    | |- context [for_loop c (i + 1) _ ?t] =>
        destruct (IH (i + 1) t)
          as (s' & extra & Hrun & Hlen & Hn & Hsh & Hm & Htag & Hout & Hid)
    end.
    rewrite Hrun.
    exists s', (glGenTextures_name E (gl_texture_names s) :: extra).
    cbn [m_loadedTextures m_textureIDs m_pShaderManager m_objectMaterials] in *.
    split; [reflexivity |]. split; [cbn; lia |].
    split; [exact Hn |]. split; [exact Hsh |]. split; [exact Hm |].
    split; [| split].
    + intros k. rewrite Htag. unfold store_cell.
      destruct (Z.eqb_spec k i) as [-> | _]; reflexivity.
    + intros k Hk. rewrite Hout by lia. apply store_cell_other. lia.
    + intros [| j] Hj.
      * rewrite Z.add_0_r, Hout by lia. rewrite store_cell_same. reflexivity.
      * replace (i + Z.of_nat (S j)) with (i + 1 + Z.of_nat j) by lia.
        rewrite Hid by lia. reflexivity.
Qed.

(** X5: DestroyGLTextures does not empty the registry: m_loadedTextures and
    every tag stay, so FindTextureSlot answers as before, while the handle
    of each registered slot is replaced by the name generated for it; the
    only calls made are glGenTextures. *)
Theorem DestroyGLTextures_keeps_registry E s :
  exists s' extra,
    DestroyGLTextures E s = Returns tt s' (map (glGenTextures 1) extra) /\
    List.length extra = Z.to_nat (m_loadedTextures s) /\
    m_loadedTextures s' = m_loadedTextures s /\
    (forall t, FindTextureSlot t s' = FindTextureSlot t s) /\
    (forall t, FindTextureSlot t s <> -1 ->
       FindTextureID t s' =
         Int.int_of_GLuint (nth (Z.to_nat (FindTextureSlot t s)) extra 0)).
Proof.
  unfold DestroyGLTextures. unfold bind at 1, get.
  destruct (DestroyGLTextures_loop_cells E (Z.to_nat (m_loadedTextures s)) 0 s)
    as (s' & extra & Hrun & Hlen & Hn & _ & _ & Htag & _ & Hid).
  rewrite Hrun. exists s', extra.
  split; [reflexivity |]. split; [exact Hlen |]. split; [exact Hn |].
  assert (Hfm : forall t,
            first_match (m_textureIDs s') t (Z.to_nat (m_loadedTextures s')) 0 =
            first_match (m_textureIDs s) t (Z.to_nat (m_loadedTextures s)) 0).
  { intros t. rewrite Hn. apply first_match_tags_ext. intros k _. apply Htag. }
  split.
  - intros t. rewrite !FindTextureSlot_first_match, Hfm. reflexivity.
  - intros t. rewrite FindTextureSlot_first_match, FindTextureID_first_match, Hfm.
    destruct (first_match (m_textureIDs s) t (Z.to_nat (m_loadedTextures s)) 0)
      as [j |] eqn:Hm; [| congruence].
    intros _. apply first_match_Some in Hm. destruct Hm as (Hj & _).
    specialize (Hid (Z.to_nat j)). rewrite Z.add_0_l, Z2Nat.id in Hid by lia.
    rewrite Hid by lia. reflexivity.
Qed.

(* ================================================================== *)
(** ** Shader state is sticky *)

Section ShaderState.

Local Open Scope R_scope.

(** X6: Colour after texture turns texturing off again, texture after colour
    turns it on; neither resets what the other set: the sampler set by
    SetShaderTexture and the colour set by SetShaderColor stay in the
    shader manager. *)
Theorem color_and_texture_order tag r g b a sh s :
  match (SetShaderTexture tag ;; SetShaderColor r g b a)
          (with_shader (Some sh) s) with
  | Returns _ s' _ =>
      shader_uniform "bUseTexture" s' = Some (UInt 0) /\
      shader_uniform "objectTexture" s' =
        Some (USampler2D (FindTextureSlot tag s)) /\
      shader_uniform "objectColor" s' = Some (UVec4 (mkVec4 r g b a))
  | NullDereference => False
  end /\
  match (SetShaderColor r g b a ;; SetShaderTexture tag)
          (with_shader (Some sh) s) with
  | Returns _ s' _ =>
      shader_uniform "bUseTexture" s' = Some (UInt 1) /\
      shader_uniform "objectTexture" s' =
        Some (USampler2D (FindTextureSlot tag s)) /\
      shader_uniform "objectColor" s' = Some (UVec4 (mkVec4 r g b a))
  | NullDereference => False
  end.
Proof.
  split; cbn; repeat split; reflexivity.
Qed.

(** X7: A tag that does not resolve still switches texturing on: SetShaderTexture
    sets bUseTexture to 1 and the sampler objectTexture to -1. *)
Theorem SetShaderTexture_unresolved tag sh s :
  unresolved tag s ->
  SetShaderTexture tag (with_shader (Some sh) s) =
    Returns tt
      (with_shader (Some (("objectTexture", USampler2D (-1))
                          :: ("bUseTexture", UInt 1) :: sh)) s)
      [setIntValue "bUseTexture" 1; setSampler2DValue "objectTexture" (-1)].
Proof.
  intros Hun.
  assert (Hslot : forall sh',
            FindTextureSlot tag
              (mkState sh' (m_textureIDs s) (m_loadedTextures s)
                       (m_objectMaterials s) (gl_texture_names s)) = (-1)%Z).
  { intros sh'. apply unresolved_lookups. exact Hun. }
  unfold SetShaderTexture, if_shader, bind, shader_call, get, with_shader.
  cbn [m_pShaderManager m_textureIDs m_loadedTextures m_objectMaterials
       gl_texture_names uniform_of_call app].
  rewrite !Hslot. reflexivity.
Qed.

Lemma SetShaderTexture_unresolved_witness :
  SetShaderTexture "floor" (with_shader (Some []) MoreExamples.one_texture) =
    Returns tt
      (with_shader (Some [("objectTexture", USampler2D (-1));
                          ("bUseTexture", UInt 1)]) MoreExamples.one_texture)
      [setIntValue "bUseTexture" 1; setSampler2DValue "objectTexture" (-1)].
Proof.
  apply (SetShaderTexture_unresolved "floor" [] MoreExamples.one_texture).
  intros k Hk. simpl in Hk. assert (k = 0%Z) as -> by lia.
  vm_compute. discriminate.
Defined.

(** X8: Without a shader manager the four guarded setters return at once: no
    call is made and the state is unchanged. *)
Theorem guarded_setters_without_shader s :
  m_pShaderManager s = None ->
  (forall v x y z p, SetTransformations v x y z p s = Returns tt s []) /\
  (forall r g b a, SetShaderColor r g b a s = Returns tt s []) /\
  (forall tag, SetShaderTexture tag s = Returns tt s []) /\
  (forall u v, SetTextureUVScale u v s = Returns tt s []).
Proof.
  intros H.
  unfold SetTransformations, SetShaderColor, SetShaderTexture,
    SetTextureUVScale, if_shader.
  rewrite H. auto.
Qed.

Lemma guarded_setters_without_shader_witness :
  (forall v x y z p,
     SetTransformations v x y z p MoreExamples.one_texture =
       Returns tt MoreExamples.one_texture []) /\
  (forall r g b a,
     SetShaderColor r g b a MoreExamples.one_texture =
       Returns tt MoreExamples.one_texture []) /\
  (forall tag,
     SetShaderTexture tag MoreExamples.one_texture =
       Returns tt MoreExamples.one_texture []) /\
  (forall u v,
     SetTextureUVScale u v MoreExamples.one_texture =
       Returns tt MoreExamples.one_texture []).
Proof.
  apply (guarded_setters_without_shader MoreExamples.one_texture).
  reflexivity.
Defined.

End ShaderState.

(* ================================================================== *)
(** ** Material lookups *)

Lemma find_material_first tag pre e post :
  ObjectMaterial.tag e = tag ->
  (forall x, In x pre -> ObjectMaterial.tag x <> tag) ->
  find_material tag (pre ++ e :: post) = Some e.
Proof.
  intros He Hpre. unfold find_material.
  induction pre as [| x pre IH]; cbn [app find].
  - apply String.eqb_eq in He. rewrite He. reflexivity.
  - assert (Hx : String.eqb (ObjectMaterial.tag x) tag = false)
      by (apply String.eqb_neq, Hpre; left; reflexivity).
    rewrite Hx. apply IH. intros y Hy. apply Hpre. right. exact Hy.
Qed.

(** X9: FindMaterial is first-match: when an entry carries the tag and no entry
    before it does, FindMaterial returns true and the caller's material
    holds that entry's ambient colour and strength, diffuse colour,
    specular colour and shininess, while its tag field is the caller's. *)
Theorem FindMaterial_first_match tag material pre e post s :
  m_objectMaterials s = (pre ++ e :: post)%list ->
  ObjectMaterial.tag e = tag ->
  (forall x, In x pre -> ObjectMaterial.tag x <> tag) ->
  FindMaterial tag material s =
    (true,
     ObjectMaterial.mk (ObjectMaterial.ambientColor e)
                       (ObjectMaterial.ambientStrength e)
                       (ObjectMaterial.diffuseColor e)
                       (ObjectMaterial.specularColor e)
                       (ObjectMaterial.shininess e)
                       (ObjectMaterial.tag material)).
Proof.
  intros Hcat He Hpre.
  rewrite FindMaterial_spec, Hcat, (find_material_first tag pre e post He Hpre).
  destruct pre; reflexivity.
Qed.

Lemma FindMaterial_first_match_witness :
  FindMaterial "wood" Examples.other_material MoreExamples.doubled_wood_state =
    (true,
     ObjectMaterial.mk (ObjectMaterial.ambientColor woodMaterial)
                       (ObjectMaterial.ambientStrength woodMaterial)
                       (ObjectMaterial.diffuseColor woodMaterial)
                       (ObjectMaterial.specularColor woodMaterial)
                       (ObjectMaterial.shininess woodMaterial)
                       (ObjectMaterial.tag Examples.other_material)).
Proof.
  apply (FindMaterial_first_match "wood" Examples.other_material
           [plasticMaterial] woodMaterial [MoreExamples.shiny_wood]
           MoreExamples.doubled_wood_state).
  - reflexivity.
  - reflexivity.
  - intros x [<- | []]. simpl. discriminate.
Defined.

(** X10: On a hit SetShaderMaterial sets the five material uniforms to the
    fields of the first entry with the tag; the uninitialised local does
    not show. *)
Theorem SetShaderMaterial_hit E tag pre e post sh s :
  m_pShaderManager s = Some sh ->
  m_objectMaterials s = (pre ++ e :: post)%list ->
  ObjectMaterial.tag e = tag ->
  (forall x, In x pre -> ObjectMaterial.tag x <> tag) ->
  exists s',
    SetShaderMaterial E tag s =
      Returns tt s'
        [setVec3Value "material.ambientColor" (ObjectMaterial.ambientColor e);
         setFloatValue "material.ambientStrength" (ObjectMaterial.ambientStrength e);
         setVec3Value "material.diffuseColor" (ObjectMaterial.diffuseColor e);
         setVec3Value "material.specularColor" (ObjectMaterial.specularColor e);
         setFloatValue "material.shininess" (ObjectMaterial.shininess e)] /\
    shader_uniform "material.shininess" s' =
      Some (UFloat (ObjectMaterial.shininess e)) /\
    shader_uniform "material.ambientStrength" s' =
      Some (UFloat (ObjectMaterial.ambientStrength e)).
Proof.
  intros Hsh Hcat He Hpre.
  assert (Hne : m_objectMaterials s <> []).
  { rewrite Hcat. destruct pre; discriminate. }
  rewrite (SetShaderMaterial_nonempty E tag s sh Hsh Hne).
  rewrite Hcat, (find_material_first tag pre e post He Hpre).
  eexists. split; [reflexivity |]. split; reflexivity.
Qed.

Lemma SetShaderMaterial_hit_witness :
  exists s',
    SetShaderMaterial Examples.env_rgb "wood" MoreExamples.doubled_wood_state =
      Returns tt s'
        [setVec3Value "material.ambientColor" (ObjectMaterial.ambientColor woodMaterial);
         setFloatValue "material.ambientStrength"
                       (ObjectMaterial.ambientStrength woodMaterial);
         setVec3Value "material.diffuseColor" (ObjectMaterial.diffuseColor woodMaterial);
         setVec3Value "material.specularColor" (ObjectMaterial.specularColor woodMaterial);
         setFloatValue "material.shininess" (ObjectMaterial.shininess woodMaterial)] /\
    shader_uniform "material.shininess" s' =
      Some (UFloat (ObjectMaterial.shininess woodMaterial)) /\
    shader_uniform "material.ambientStrength" s' =
      Some (UFloat (ObjectMaterial.ambientStrength woodMaterial)).
Proof.
  apply (SetShaderMaterial_hit Examples.env_rgb "wood" [plasticMaterial]
           woodMaterial [MoreExamples.shiny_wood] [] MoreExamples.doubled_wood_state).
  - reflexivity.
  - reflexivity.
  - reflexivity.
  - intros x [<- | []]. simpl. discriminate.
Defined.

(** X11: SetShaderMaterial dereferences the null shader manager exactly when no
    shader manager is attached and the catalog is not empty; with an empty
    catalog it returns without a call even then. *)
Theorem SetShaderMaterial_null_dereference E tag s :
  (SetShaderMaterial E tag s = NullDereference <->
   m_pShaderManager s = None /\ m_objectMaterials s <> []) /\
  (m_objectMaterials s = [] -> SetShaderMaterial E tag s = Returns tt s []).
Proof.
  split; [| apply SetShaderMaterial_empty].
  split.
  - intros H.
    destruct (m_objectMaterials s) as [| m0 l] eqn:Hl.
    + rewrite SetShaderMaterial_empty in H by exact Hl. discriminate.
    + destruct (m_pShaderManager s) as [sh |] eqn:Hsh.
      * rewrite (SetShaderMaterial_nonempty E tag s sh Hsh) in H
          by (rewrite Hl; discriminate).
        discriminate.
      * split; [reflexivity | discriminate].
  - intros [Hsh Hne]. apply SetShaderMaterial_null; assumption.
Qed.

Lemma find_material_app tag l1 l2 :
  find_material tag (l1 ++ l2) =
  match find_material tag l1 with
  | Some e => Some e
  | None => find_material tag l2
  end.
Proof.
  unfold find_material.
  induction l1 as [| x l IH]; cbn [app find].
  - reflexivity.
  - destruct (String.eqb (ObjectMaterial.tag x) tag); [reflexivity | exact IH].
Qed.

(** DefineObjectMaterials returns from every state with the presets
    appended and the shader manager untouched. *)
Lemma DefineObjectMaterials_spec s :
  exists s',
    DefineObjectMaterials s = Returns tt s' [] /\
    m_objectMaterials s' = (m_objectMaterials s ++ Examples.seed_catalog)%list /\
    m_pShaderManager s' = m_pShaderManager s /\
    resolves_scene_materials (m_objectMaterials s').
Proof.
  eexists. split; [reflexivity |].
  unfold with_objectMaterials. cbn [m_objectMaterials m_pShaderManager].
  rewrite <- !app_assoc. cbn [app].
  split; [reflexivity |]. split; [reflexivity |].
  unfold resolves_scene_materials. rewrite !find_material_app.
  repeat split.
  - destruct (find_material "plastic" (m_objectMaterials s)); discriminate.
  - destruct (find_material "wood" (m_objectMaterials s)); discriminate.
  - destruct (find_material "glass" (m_objectMaterials s)); discriminate.
Qed.

(** X12: DefineObjectMaterials appends the three presets to whatever the catalog
    holds.  Afterwards "plastic", "wood" and "glass" resolve, a tag that
    resolved before resolves to the same entry as before (earlier entries
    shadow the presets), and a preset tag that did not resolve before
    resolves to the preset. *)
Theorem DefineObjectMaterials_appends s :
  exists s',
    DefineObjectMaterials s = Returns tt s' [] /\
    m_objectMaterials s' = (m_objectMaterials s ++ Examples.seed_catalog)%list /\
    m_loadedTextures s' = m_loadedTextures s /\
    m_textureIDs s' = m_textureIDs s /\
    m_pShaderManager s' = m_pShaderManager s /\
    resolves_scene_materials (m_objectMaterials s') /\
    (forall tag, find_material tag (m_objectMaterials s) <> None ->
       find_material tag (m_objectMaterials s') =
       find_material tag (m_objectMaterials s)) /\
    (forall tag, find_material tag (m_objectMaterials s) = None ->
       find_material tag (m_objectMaterials s') =
       find_material tag Examples.seed_catalog).
Proof.
  eexists. split; [reflexivity |].
  cbn [m_objectMaterials m_loadedTextures m_textureIDs m_pShaderManager
       with_objectMaterials].
  assert (Happ : (((m_objectMaterials s ++ [plasticMaterial]) ++ [woodMaterial])
                  ++ [glassMaterial])%list
                 = (m_objectMaterials s ++ Examples.seed_catalog)%list).
  { rewrite <- !app_assoc. reflexivity. }
  unfold with_objectMaterials. cbn [m_objectMaterials]. rewrite Happ.
  pose proof (fun tag => find_material_app tag (m_objectMaterials s)
                          Examples.seed_catalog) as Hfind.
  repeat split; auto.
  - rewrite Hfind. destruct (find_material "plastic" (m_objectMaterials s));
      discriminate.
  - rewrite Hfind. destruct (find_material "wood" (m_objectMaterials s));
      discriminate.
  - rewrite Hfind. destruct (find_material "glass" (m_objectMaterials s));
      discriminate.
  - intros tag H. rewrite Hfind.
    destruct (find_material tag (m_objectMaterials s)); congruence.
  - intros tag H. rewrite Hfind, H. reflexivity.
Qed.

(* ================================================================== *)
(** ** Loading the scene textures *)

Lemma bound_units_app c1 c2 :
  bound_units (c1 ++ c2) = (bound_units c1 ++ bound_units c2)%list.
Proof.
  induction c1 as [| c c1 IH]; cbn [app bound_units]; auto.
  destruct c; cbn [app]; rewrite ?IH; reflexivity.
Qed.

Lemma drawn_app c1 c2 : drawn (c1 ++ c2) = (drawn c1 ++ drawn c2)%list.
Proof.
  induction c1 as [| c c1 IH]; cbn [app drawn]; auto.
  destruct c; cbn [app]; rewrite ?IH; reflexivity.
Qed.

(** CreateGLTexture makes no texture unit active and draws nothing. *)
Lemma CreateGLTexture_quiet E filename tag s :
  match CreateGLTexture E filename tag s with
  | Returns _ _ calls => bound_units calls = [] /\ drawn calls = []
  | NullDereference => False
  end.
Proof.
  unfold CreateGLTexture, upload_pixels, gl_GenTextures1.
  destruct (stbi_load E filename) as [img |]; [| cbn; auto].
  destruct (colorChannels img =? 3); [cbn; auto |].
  destruct (colorChannels img =? 4); cbn; auto.
Qed.

Lemma register_all_quiet E requests :
  forall s,
    match register_all E requests s with
    | Returns _ _ calls => bound_units calls = [] /\ drawn calls = []
    | NullDereference => False
    end.
Proof.
  induction requests as [| [filename tag] rest IH]; intros s.
  - cbn. auto.
  - cbn [register_all]. unfold bind at 1.
    pose proof (CreateGLTexture_quiet E filename tag s) as H1.
    destruct (CreateGLTexture E filename tag s) as [b s1 c1 |]; [| exact H1].
    unfold bind at 1. specialize (IH s1).
    destruct (register_all E rest s1) as [bs s2 c2 |]; [| exact IH].
    unfold ret. rewrite app_nil_r, bound_units_app, drawn_app.
    destruct H1 as [-> ->], IH as [-> ->]. auto.
Qed.

(** LoadSceneTextures is the five registrations followed by BindGLTextures. *)
Lemma LoadSceneTextures_unfold E s :
  LoadSceneTextures E s =
  match register_all E scene_texture_requests s with
  | Returns _ s' c =>
      match BindGLTextures s' with
      | Returns _ s'' c' => Returns tt s'' (c ++ c')
      | NullDereference => NullDereference
      end
  | NullDereference => NullDereference
  end.
Proof.
  unfold LoadSceneTextures, scene_texture_requests.
  cbn [register_all]. unfold bind, ret.
  repeat match goal with
         | |- context [CreateGLTexture E ?f ?t ?x] =>
             destruct (CreateGLTexture E f t x) as [? ? ? |]; try reflexivity
         end.
  destruct (BindGLTextures _) as [[] ? ? |]; try reflexivity.
  rewrite !app_nil_r, <- !app_assoc. reflexivity.
Qed.

(** Requests with pairwise different tags register pairwise different tags. *)
Lemma registered_tags_distinct E requests :
  NoDup (map snd requests) -> NoDup (registered_tags E requests).
Proof.
  unfold registered_tags.
  induction requests as [| [filename tag] rest IH]; cbn [map filter fst snd].
  - intros _. constructor.
  - intros Hnd. apply NoDup_cons_iff in Hnd. destruct Hnd as [Hfresh Hrest].
    destruct (accepted E filename); [| exact (IH Hrest)].
    cbn [map snd]. apply NoDup_cons_iff. split; [| exact (IH Hrest)].
    intros Hin. apply Hfresh.
    apply in_map_iff in Hin. destruct Hin as (r & Hr & Hf).
    apply filter_In in Hf. apply in_map_iff. exists r. tauto.
Qed.

Lemma scene_tags_distinct : NoDup (map snd scene_texture_requests).
Proof.
  repeat constructor; cbn; intuition discriminate.
Qed.

(** The slots after a run of registrations with pairwise different tags. *)
Lemma register_all_distinct_slots E requests s :
  NoDup (map snd requests) ->
  m_loadedTextures s = 0 ->
  exists bs s' calls,
    register_all E requests s = Returns bs s' calls /\
    m_loadedTextures s' = Z.of_nat (List.length (registered_tags E requests)) /\
    m_pShaderManager s' = m_pShaderManager s /\
    m_objectMaterials s' = m_objectMaterials s /\
    (forall k t, nth_error (registered_tags E requests) k = Some t ->
                 FindTextureSlot t s' = Z.of_nat k) /\
    (forall t, ~ In t (registered_tags E requests) ->
               FindTextureSlot t s' = -1).
Proof.
  intros Hnd H0.
  destruct (register_all_spec E requests s)
    as (s' & calls & Hrun & Hn & _ & Htags & Hm & Hsh).
  rewrite H0 in Hn, Htags. cbn [Z.add] in Hn, Htags.
  exists (map (fun r => accepted E (fst r)) requests), s', calls.
  split; [exact Hrun |]. split; [exact Hn |].
  split; [exact Hsh |]. split; [exact Hm |].
  assert (Hnd' : NoDup (registered_tags E requests))
    by (apply registered_tags_distinct; exact Hnd).
  split.
  - intros k t Hk.
    assert (Hlen : (k < List.length (registered_tags E requests))%nat)
      by (apply nth_error_Some; congruence).
    rewrite FindTextureSlot_first_match.
    rewrite (first_match_intro _ t _ 0 (Z.of_nat k)); auto.
    + lia.
    + rewrite (Htags k Hlen). apply nth_error_nth. exact Hk.
    + intros j Hj Heq.
      specialize (Htags (Z.to_nat j)). rewrite Z2Nat.id in Htags by lia.
      assert (Hj' : nth_error (registered_tags E requests) (Z.to_nat j) = Some t).
      { rewrite <- Heq, Htags by lia. apply nth_error_nth'. lia. }
      rewrite NoDup_nth_error in Hnd'.
      assert (Z.to_nat j = k) by (apply Hnd'; [lia | congruence]).
      lia.
  - intros t Hnot. apply unresolved_lookups. intros k Hk Heq.
    apply Hnot. specialize (Htags (Z.to_nat k)).
    rewrite Z2Nat.id in Htags by lia.
    rewrite <- Heq, Htags by lia. apply nth_In. lia.
Qed.

Lemma BindGLTextures_returns s :
  exists calls,
    BindGLTextures s = Returns tt s calls /\
    List.length (bound_units calls) = Z.to_nat (m_loadedTextures s).
Proof.
  exists (bind_calls (m_textureIDs s) (Z.to_nat (m_loadedTextures s)) 0).
  split.
  - unfold BindGLTextures. unfold bind at 1, get.
    rewrite for_loop_bind_calls. reflexivity.
  - apply bound_units_bind_calls.
Qed.

(** X13: LoadSceneTextures on an empty registry, whatever files decode: it
    returns; the registry holds as many textures as files were accepted and
    that many units are bound; the tag of the k-th accepted file resolves
    to slot k, so a file that fails moves the later textures one slot down;
    and the tag of a file that failed resolves to -1. *)
Theorem LoadSceneTextures_slots E s :
  m_loadedTextures s = 0 ->
  exists s' calls,
    LoadSceneTextures E s = Returns tt s' calls /\
    m_loadedTextures s' =
      Z.of_nat (List.length (registered_tags E scene_texture_requests)) /\
    List.length (bound_units calls) =
      List.length (registered_tags E scene_texture_requests) /\
    (forall k t, nth_error (registered_tags E scene_texture_requests) k = Some t ->
                 FindTextureSlot t s' = Z.of_nat k) /\
    (forall filename t, In (filename, t) scene_texture_requests ->
                        accepted E filename = false ->
                        FindTextureSlot t s' = -1).
Proof.
  intros H0.
  destruct (register_all_distinct_slots E scene_texture_requests s
              scene_tags_distinct H0)
    as (bs & s' & c & Hrun & Hn & _ & _ & Hslot & Hmiss).
  pose proof (register_all_quiet E scene_texture_requests s) as Hq.
  rewrite Hrun in Hq. destruct Hq as [Hu _].
  destruct (BindGLTextures_returns s') as (c' & Hbind & Hlen).
  exists s', (c ++ c')%list.
  rewrite LoadSceneTextures_unfold, Hrun, Hbind.
  split; [reflexivity |]. split; [exact Hn |].
  split; [| split; [exact Hslot |]].
  - rewrite bound_units_app, Hu. cbn [app]. rewrite Hlen, Hn. lia.
  - intros filename t Hin Hrej. apply Hmiss.
    unfold registered_tags. intros Ht.
    apply in_map_iff in Ht. destruct Ht as ([f' t'] & Heq & Hf).
    cbn [snd] in Heq. subst t'.
    apply filter_In in Hf. destruct Hf as [Hin' Hacc]. cbn [fst] in Hacc.
    assert (f' = filename); [| congruence].
    clear - Hin Hin'. cbn in Hin, Hin'.
    repeat match goal with
           | H : _ \/ _ |- _ => destruct H
           | H : (_, _) = (_, _) |- _ => inversion H; clear H; subst
           | H : False |- _ => destruct H
           end; try reflexivity; discriminate.
Qed.

Lemma LoadSceneTextures_slots_witness :
  exists s' calls,
    LoadSceneTextures MoreExamples.env_two_files (fresh_state None) =
      Returns tt s' calls /\
    m_loadedTextures s' =
      Z.of_nat (List.length
        (registered_tags MoreExamples.env_two_files scene_texture_requests)) /\
    List.length (bound_units calls) =
      List.length (registered_tags MoreExamples.env_two_files scene_texture_requests) /\
    (forall k t,
       nth_error (registered_tags MoreExamples.env_two_files scene_texture_requests) k
         = Some t ->
       FindTextureSlot t s' = Z.of_nat k) /\
    (forall filename t, In (filename, t) scene_texture_requests ->
                        accepted MoreExamples.env_two_files filename = false ->
                        FindTextureSlot t s' = -1).
Proof.
  apply (LoadSceneTextures_slots MoreExamples.env_two_files (fresh_state None)).
  reflexivity.
Defined.

(** In that example "table" and "wall" are the two registered tags, in
    slots 0 and 1. *)
Example two_files_registered :
  registered_tags MoreExamples.env_two_files scene_texture_requests =
  ["table"; "wall"].
Proof. reflexivity. Qed.

(* ================================================================== *)
(** ** What a frame draws *)

Lemma draws_bind {A} (m : M A) (k : A -> M unit) l1 l2 l :
  (forall s, match m s with
             | Returns _ _ calls => drawn calls = l1
             | NullDereference => True
             end) ->
  (forall a, draws (k a) l2) ->
  l = (l1 ++ l2)%list ->
  draws (bind m k) l.
Proof.
  intros Hm Hk -> s. unfold bind.
  specialize (Hm s). destruct (m s) as [a s1 c1 |]; [| exact I].
  specialize (Hk a s1). destruct (k a s1) as [b s2 c2 |]; [| exact I].
  rewrite drawn_app, Hm, Hk. reflexivity.
Qed.

Lemma draws_DrawMesh x : draws (emit (DrawMesh x)) [x].
Proof. intros s. reflexivity. Qed.

Lemma draws_SetTransformations v x y z p : draws (SetTransformations v x y z p) [].
Proof.
  intros s. unfold SetTransformations, if_shader, shader_call.
  destruct (m_pShaderManager s); reflexivity.
Qed.

Lemma draws_SetShaderColor r g b a : draws (SetShaderColor r g b a) [].
Proof.
  intros s. unfold SetShaderColor, if_shader, bind, shader_call.
  destruct (m_pShaderManager s); reflexivity.
Qed.

Lemma draws_SetShaderTexture tag : draws (SetShaderTexture tag) [].
Proof.
  intros s. unfold SetShaderTexture, if_shader, bind, shader_call, get.
  destruct (m_pShaderManager s); reflexivity.
Qed.

Lemma draws_SetShaderMaterial E tag : draws (SetShaderMaterial E tag) [].
Proof.
  intros s.
  destruct (m_objectMaterials s) as [| m0 l] eqn:Hl.
  - rewrite SetShaderMaterial_empty by exact Hl. reflexivity.
  - destruct (m_pShaderManager s) as [sh |] eqn:Hsh.
    + rewrite (SetShaderMaterial_nonempty E tag s sh Hsh)
        by (rewrite Hl; discriminate).
      reflexivity.
    + rewrite SetShaderMaterial_null; auto. rewrite Hl. discriminate.
Qed.

Ltac draws_scene :=
  first
    [ apply draws_SetTransformations
    | apply draws_SetShaderColor
    | apply draws_SetShaderTexture
    | apply draws_SetShaderMaterial
    | apply draws_DrawMesh
    | eapply draws_bind;
      [ intros s; first [ apply (draws_SetTransformations _ _ _ _ _ s)
                        | apply (draws_SetShaderColor _ _ _ _ s)
                        | apply (draws_SetShaderTexture _ s)
                        | apply (draws_SetShaderMaterial _ _ s)
                        | apply (draws_DrawMesh _ s) ]
      | intros _; draws_scene
      | reflexivity ] ].

Lemma draws_createCoffeeMug E :
  draws (createCoffeeMug E) [TorusMesh; SphereMesh; CylinderMesh].
Proof. unfold createCoffeeMug. draws_scene. Qed.

Lemma draws_createDesktop E :
  draws (createDesktop E) [BoxMesh; BoxMesh; BoxMesh; BoxMesh].
Proof. unfold createDesktop. draws_scene. Qed.

Lemma draws_createTable E : draws (createTable E) [BoxMesh].
Proof. unfold createTable. draws_scene. Qed.

Lemma draws_createPaperTowel E :
  draws (createPaperTowel E) [CylinderMesh; SphereMesh].
Proof. unfold createPaperTowel. draws_scene. Qed.

Lemma draws_createFlowerPot E :
  draws (createFlowerPot E)
        [CylinderMesh; CylinderMesh; SphereMesh; ConeMesh; ConeMesh].
Proof. unfold createFlowerPot. draws_scene. Qed.

Lemma draws_createWall E : draws (createWall E) [PlaneMesh].
Proof. unfold createWall. draws_scene. Qed.

Lemma draws_RenderScene E : draws (RenderScene E) scene_meshes.
Proof.
  unfold RenderScene.
  eapply draws_bind; [apply draws_createCoffeeMug | intros _ | reflexivity].
  eapply draws_bind; [apply draws_createDesktop | intros _ | reflexivity].
  eapply draws_bind; [apply draws_createTable | intros _ | reflexivity].
  eapply draws_bind; [apply draws_createPaperTowel | intros _ | reflexivity].
  eapply draws_bind; [apply draws_createFlowerPot | intros _ | reflexivity].
  apply draws_createWall.
Qed.

(** X14: A frame always draws the same sixteen meshes in the same order: with a
    shader manager attached, or with none and an empty catalog, RenderScene
    returns and its draw calls are the fixed list, whatever textures are
    registered and whatever the catalog holds. *)
Theorem RenderScene_draws E s :
  has_shader s = true \/ m_objectMaterials s = [] ->
  exists t calls,
    RenderScene E s = Returns tt t calls /\
    drawn calls = scene_meshes /\
    List.length (drawn calls) = 16%nat.
Proof.
  intros Hok.
  pose proof (RenderScene_agrees E s s (same_scene_refl s)) as Hret.
  pose proof (draws_RenderScene E s) as Hdraw.
  destruct (RenderScene E s) as [[] t calls |].
  - exists t, calls. rewrite Hdraw. auto.
  - destruct Hret as [Hsh Hne]. destruct Hok; congruence.
Qed.

Lemma RenderScene_draws_witness :
  exists t calls,
    RenderScene Examples.env_rgb Examples.seeded_state = Returns tt t calls /\
    drawn calls = scene_meshes /\
    List.length (drawn calls) = 16%nat.
Proof.
  apply (RenderScene_draws Examples.env_rgb Examples.seeded_state).
  left. reflexivity.
Defined.

(* ================================================================== *)
(** ** Preparing the scene *)

Lemma LoadSceneTextures_returns E s :
  exists s' calls,
    LoadSceneTextures E s = Returns tt s' calls /\
    m_pShaderManager s' = m_pShaderManager s /\
    m_objectMaterials s' = m_objectMaterials s.
Proof.
  destruct (register_all_spec E scene_texture_requests s)
    as (s' & c & Hrun & _ & _ & _ & Hm & Hsh).
  destruct (BindGLTextures_returns s') as (c' & Hbind & _).
  exists s', (c ++ c')%list.
  rewrite LoadSceneTextures_unfold, Hrun, Hbind. auto.
Qed.

Lemma keeps_uniform_call name c n u :
  uniform_of_call c = Some (n, u) ->
  String.eqb n name = false ->
  keeps_uniform name (shader_call c).
Proof.
  intros Hc Hn s sh Hsh. unfold shader_call. rewrite Hsh, Hc.
  eexists _, _. split; [reflexivity |].
  cbn [uniform_value]. rewrite Hn. reflexivity.
Qed.

Lemma keeps_uniform_bind name (m k : M unit) :
  keeps_uniform name m -> keeps_uniform name k -> keeps_uniform name (m ;; k).
Proof.
  intros Hm Hk s sh Hsh. unfold bind.
  destruct (Hm s sh Hsh) as (sh1 & c1 & -> & H1).
  destruct (Hk (with_shader (Some sh1) s) sh1 eq_refl) as (sh2 & c2 & -> & H2).
  exists sh2, (c1 ++ c2)%list. split; [reflexivity | congruence].
Qed.

Ltac keeps_lights :=
  first [ eapply keeps_uniform_call; reflexivity
        | apply keeps_uniform_bind; [eapply keeps_uniform_call; reflexivity | keeps_lights] ].

(** With a shader manager attached SetupSceneLights returns, changes only
    the uniforms, and leaves lighting switched on. *)
Lemma SetupSceneLights_attached s sh :
  m_pShaderManager s = Some sh ->
  exists sh' calls,
    SetupSceneLights s = Returns tt (with_shader (Some sh') s) calls /\
    uniform_value "bUseLighting" sh' = Some (UBool true).
Proof.
  intros Hsh. unfold SetupSceneLights. unfold bind at 1.
  unfold shader_call at 1. rewrite Hsh. cbn [uniform_of_call].
  match goal with
  | |- context [match ?rest (with_shader (Some ?sh1) s) with _ => _ end] =>
      assert (Hk : keeps_uniform "bUseLighting" rest) by keeps_lights;
      destruct (Hk (with_shader (Some sh1) s) sh1 eq_refl) as (sh2 & c2 & Hrun & Hval)
  end.
  rewrite Hrun. exists sh2, ([setBoolValue g_UseLightingName true] ++ c2)%list.
  split; [reflexivity |]. rewrite Hval. reflexivity.
Qed.

(** X15: PrepareScene cannot run without a shader manager: the textures are
    loaded first, then the first call of SetupSceneLights dereferences the
    null pointer, for every environment and every registry and catalog. *)
Theorem PrepareScene_without_shader_manager E s :
  m_pShaderManager s = None ->
  PrepareScene E s = NullDereference /\
  exists s' calls, LoadSceneTextures E s = Returns tt s' calls.
Proof.
  intros Hnull.
  destruct (LoadSceneTextures_returns E s) as (s' & calls & Hload & Hsh & _).
  split; [| eauto].
  unfold PrepareScene. unfold bind at 1. rewrite Hload.
  unfold bind at 1. unfold SetupSceneLights. unfold bind at 1.
  unfold shader_call at 1. rewrite Hsh, Hnull. reflexivity.
Qed.

Lemma PrepareScene_without_shader_manager_witness :
  PrepareScene MoreExamples.env_two_files MoreExamples.one_texture = NullDereference /\
  exists s' calls,
    LoadSceneTextures MoreExamples.env_two_files MoreExamples.one_texture =
      Returns tt s' calls.
Proof.
  apply (PrepareScene_without_shader_manager MoreExamples.env_two_files
           MoreExamples.one_texture).
  reflexivity.
Defined.

(** X16: Texture files that fail to load do not stop the scene: with a shader
    manager attached PrepareScene returns whatever the decoder answers; it
    leaves lighting switched on and the three presets appended to the
    catalog; and every RenderScene from the prepared state returns, draws
    the sixteen meshes, and makes the same calls whatever the uninitialised
    local of SetShaderMaterial contains. *)
Theorem PrepareScene_then_RenderScene E s sh :
  m_pShaderManager s = Some sh ->
  exists s1 calls1,
    PrepareScene E s = Returns tt s1 calls1 /\
    has_shader s1 = true /\
    shader_uniform "bUseLighting" s1 = Some (UBool true) /\
    m_objectMaterials s1 = (m_objectMaterials s ++ Examples.seed_catalog)%list /\
    forall E1 E2,
    exists t1 t2 calls,
      RenderScene E1 s1 = Returns tt t1 calls /\
      RenderScene E2 s1 = Returns tt t2 calls /\
      drawn calls = scene_meshes.
Proof.
  intros Hsh.
  destruct (LoadSceneTextures_returns E s) as (s1 & c1 & Hload & Hsh1 & Hm1).
  rewrite Hsh in Hsh1.
  destruct (SetupSceneLights_attached s1 sh Hsh1) as (sh' & c2 & Hlights & Hon).
  destruct (DefineObjectMaterials_spec (with_shader (Some sh') s1))
    as (s3 & Hdef & Hcat & Hsh3 & Hres).
  cbn [with_shader m_objectMaterials m_pShaderManager] in Hcat, Hsh3.
  eexists s3, _. split.
  - unfold PrepareScene. unfold bind at 1. rewrite Hload.
    unfold bind at 1. rewrite Hlights.
    unfold bind at 1. rewrite Hdef.
    unfold bind, emit. reflexivity.
  - assert (Hhas : has_shader s3 = true) by (unfold has_shader; rewrite Hsh3; auto).
    split; [exact Hhas |]. split.
    + unfold shader_uniform. rewrite Hsh3. exact Hon.
    + split; [congruence |].
      intros E1 E2.
      pose proof (RenderScene_indeterminate_irrelevant E1 E2 s3 s3
                    (same_scene_refl s3) (or_intror Hres)) as Hsame.
      pose proof (draws_RenderScene E1 s3) as Hdraw.
      destruct (RenderScene E1 s3) as [[] t1 calls |],
               (RenderScene E2 s3) as [[] t2 calls' |]; try tauto.
      * destruct Hsame as (<- & _). exists t1, t2, calls. auto.
      * destruct Hsame as [Hno _]. congruence.
Qed.

Lemma PrepareScene_then_RenderScene_witness :
  exists s1 calls1,
    PrepareScene MoreExamples.env_two_files (fresh_state (Some [])) =
      Returns tt s1 calls1 /\
    has_shader s1 = true /\
    shader_uniform "bUseLighting" s1 = Some (UBool true) /\
    m_objectMaterials s1 =
      (m_objectMaterials (fresh_state (Some [])) ++ Examples.seed_catalog)%list /\
    forall E1 E2,
    exists t1 t2 calls,
      RenderScene E1 s1 = Returns tt t1 calls /\
      RenderScene E2 s1 = Returns tt t2 calls /\
      drawn calls = scene_meshes.
Proof.
  apply (PrepareScene_then_RenderScene MoreExamples.env_two_files
           (fresh_state (Some [])) []).
  reflexivity.
Defined.

(* ================================================================== *)
(** ** Shape of the model matrix *)

Section ModelMatrixShape.

Local Open Scope R_scope.

Lemma product_col_unit_w a : Textbook.product_col a unit_w = col3 a.
Proof.
  destruct a as [[? ? ? ?] [? ? ? ?] [? ? ? ?] [? ? ? ?]].
  unfold Textbook.product_col, Textbook.dot4, Textbook.row0, Textbook.row1,
    Textbook.row2, Textbook.row3, unit_w.
  cbn [x4 y4 z4 w4 col0 col1 col2 col3]. f_equal; ring.
Qed.

Lemma row3_product a b :
  Textbook.row3 a = unit_w -> Textbook.row3 b = unit_w ->
  Textbook.row3 (Textbook.product a b) = unit_w.
Proof.
  destruct a as [[? ? ? a03] [? ? ? a13] [? ? ? a23] [? ? ? a33]].
  destruct b as [[? ? ? b03] [? ? ? b13] [? ? ? b23] [? ? ? b33]].
  unfold Textbook.row3, unit_w. cbn [x4 y4 z4 w4 col0 col1 col2 col3].
  intros Ha Hb. inversion Ha. inversion Hb. subst.
  unfold Textbook.product, Textbook.product_col, Textbook.dot4,
    Textbook.row0, Textbook.row1, Textbook.row2, Textbook.row3.
  cbn [x4 y4 z4 w4 col0 col1 col2 col3]. f_equal; ring.
Qed.

Lemma col3_product a b :
  col3 (Textbook.product a b) = Textbook.product_col a (col3 b).
Proof. reflexivity. Qed.

(** X17: The model matrix is affine and carries the position unchanged: for
    every scale and every three rotation angles its fourth column is
    (x, y, z, 1) of positionXYZ and its fourth row is (0, 0, 0, 1), so
    scale and rotation never move an object's origin. *)
Theorem modelView_position_column scaleXYZ x y z positionXYZ :
  col3 (modelView_of scaleXYZ x y z positionXYZ) =
    mkVec4 (x3 positionXYZ) (y3 positionXYZ) (z3 positionXYZ) 1 /\
  Textbook.row3 (modelView_of scaleXYZ x y z positionXYZ) = mkVec4 0 0 0 1.
Proof.
  rewrite modelView_of_compose. unfold Textbook.compose. split.
  - rewrite !col3_product.
    change (col3 (Textbook.scaling scaleXYZ)) with unit_w.
    rewrite product_col_unit_w.
    change (col3 (Textbook.rotationZ (Textbook.degrees_to_radians z))) with unit_w.
    rewrite product_col_unit_w.
    change (col3 (Textbook.rotationY (Textbook.degrees_to_radians y))) with unit_w.
    rewrite product_col_unit_w.
    change (col3 (Textbook.rotationX (Textbook.degrees_to_radians x))) with unit_w.
    rewrite product_col_unit_w.
    reflexivity.
  - repeat apply row3_product; reflexivity.
Qed.

(** X18: Without rotation the model matrix is the scale on the diagonal and the
    position in the fourth column: the object is scaled about its own
    origin and then moved, the position is not scaled. *)
Theorem modelView_without_rotation scaleXYZ positionXYZ :
  modelView_of scaleXYZ 0 0 0 positionXYZ =
    Textbook.of_rows
      (mkVec4 (x3 scaleXYZ) 0 0 (x3 positionXYZ))
      (mkVec4 0 (y3 scaleXYZ) 0 (y3 positionXYZ))
      (mkVec4 0 0 (z3 scaleXYZ) (z3 positionXYZ))
      (mkVec4 0 0 0 1).
Proof.
  rewrite modelView_of_compose. unfold Textbook.compose.
  rewrite zero_degrees, rotationX_zero, rotationY_zero, rotationZ_zero,
    !product_identity_l.
  destruct scaleXYZ, positionXYZ.
  unfold Textbook.product, Textbook.product_col, Textbook.dot4,
    Textbook.row0, Textbook.row1, Textbook.row2, Textbook.row3,
    Textbook.translation, Textbook.scaling, Textbook.of_rows.
  cbn [x3 y3 z3 x4 y4 z4 w4 col0 col1 col2 col3].
  f_equal; f_equal; ring.
Qed.

End ModelMatrixShape.
